(** * Example builders of [smiles_transformer/dataset.py]

    A shallow embedding of the five dataset classes of [dataset.py]
    ([STDataset], [Seq2seqDataset], [ESOLDataset], [TSMDataset],
    [MSMDataset]) and of the module constant [PAD], followed by the
    properties of the sample builders.

    Conventions of the embedding:
    - Python [int]s are [Z]; Python lists of ids are lists of [pyval]
      ([PyNone] is the placeholder of a preallocated array).
    - Python [float]s are IEEE 754 binary64 values, Rocq's primitive
      [float]s: a literal such as [0.15] is the binary64 value nearest to
      it, the comparisons are those of IEEE 754 and the one division
      [prob /= rate] rounds to nearest, ties to even, as CPython does.
    - The cells of the corpus columns are [str] values and the ids are
      unbounded integers: a cell that pandas reads as NaN and the int64
      range of [torch.tensor] are outside the embedding.
    - The process-wide [random] module is an explicit state, a tape of
      raw draws that [random.random()] and [random.randrange(n)] consume
      one entry at a time.
    - Exceptions are the [Raise] results of an error-and-state monad.
    - An instance is its attribute dictionary, a [gmap] from attribute
      names to values, built by [__init__] one assignment at a time; a
      method first reads the attributes it uses ([fields]) and then runs
      on them. *)

From Stdlib Require Import ZArith Lia Uint63 Floats.
From stdpp Require Import base option list strings gmap.

#[local] Set Warnings "-inexact-float".

Local Open Scope Z_scope.

(** ** Exceptions, the random source and the monad of the builders *)

Inductive exn : Type :=
| AttributeError
| IndexError
| TypeError
| ValueError
| ZeroDivisionError
| TransformError.

Inductive result (A : Type) : Type :=
| Ok (a : A)
| Raise (e : exn).
Arguments Ok {A} a.
Arguments Raise {A} e.

(** The state of Python's [random] module: the draws still to come. *)
Record RandomState : Type := { tape : nat → Z; cursor : nat }.

Definition M (A : Type) : Type := RandomState → result (A * RandomState).

Definition ret {A} (a : A) : M A := λ g, Ok (a, g).

Definition bind {A B} (m : M A) (k : A → M B) : M B :=
  λ g, match m g with
       | Ok (a, g') => k a g'
       | Raise e => Raise e
       end.

Definition raise {A} (e : exn) : M A := λ _, Raise e.

Definition lift {A} (r : result A) : M A :=
  λ g, match r with Ok a => Ok (a, g) | Raise e => Raise e end.

(** What a caller observes of a run: the value returned or the exception. *)
Definition outcome {A} (r : result (A * RandomState)) : result A :=
  match r with Ok (a, _) => Ok a | Raise e => Raise e end.

#[global] Instance M_ret : MRet M := @ret.
#[global] Instance M_bind : MBind M := λ A B k m, bind m k.

Definition next_raw : M Z :=
  λ g, Ok (tape g (cursor g), {| tape := tape g; cursor := S (cursor g) |}).

(** The binary64 value [k * 2^-53] of the 53 random bits [k] of a raw
    draw: the conversion of an integer below 2^53 and the scaling by a power
    of two are both exact. *)
Definition draw_value (raw : Z) : float :=
  (PrimFloat.of_uint63 (Uint63.of_Z (raw mod 2 ^ 53)) * 0x1p-53)%float.

(** [random.random()]: a multiple of 2^-53 in [0, 1). *)
Definition random_random : M float :=
  raw ← next_raw; mret (draw_value raw).

(** [random.randrange(n)]: an integer of [0, n); an empty range raises. *)
Definition random_randrange (n : Z) : M Z :=
  if n <=? 0 then raise ValueError
  else raw ← next_raw; mret (raw mod n).

(** A random source that replays the given raw draws (and 0 afterwards). *)
Definition replay (draws : list Z) : RandomState :=
  {| tape := λ i, nth i draws 0; cursor := 0 |}.

(** ** Python lists and numpy columns *)

Inductive pyval : Type :=
| PyNone
| PyInt (z : Z).

Definition py_len {A} (l : list A) : Z := Z.of_nat (length l).

(** [[x] * n] *)
Definition py_repeat {A} (x : A) (n : Z) : list A := replicate (Z.to_nat n) x.

(** [l[:n]], a negative [n] counting from the end. *)
Definition py_slice_to {A} (n : Z) (l : list A) : list A :=
  if 0 <=? n then take (Z.to_nat n) l
  else take (Z.to_nat (py_len l + n)) l.

(** [l[i] = x] *)
Definition py_setitem {A} (l : list A) (i : nat) (x : A) : result (list A) :=
  if decide (i < length l)%nat then Ok (<[i := x]> l) else Raise IndexError.

(** [a[i]] on a one-dimensional array, a negative [i] counting from the end. *)
Definition np_getitem {A} (a : list A) (i : Z) : result A :=
  let j := if i <? 0 then i + py_len a else i in
  if j <? 0 then Raise IndexError
  else match a !! Z.to_nat j with
       | Some x => Ok x
       | None => Raise IndexError
       end.

(** [torch.tensor(value)] on a list of ids: every element must be a number
    (the ids are unbounded here, the int64 range of the tensor is not
    modelled). *)
Fixpoint torch_tensor (value : list pyval) : result (list Z) :=
  match value with
  | [] => Ok []
  | PyNone :: _ => Raise TypeError
  | PyInt z :: rest =>
      match torch_tensor rest with
      | Ok zs => Ok (z :: zs)
      | Raise e => Raise e
      end
  end.

(** Iterating over a [str] yields its characters as one-character strings. *)
Fixpoint str_iter (s : string) : list string :=
  match s with
  | EmptyString => []
  | String c rest => String c EmptyString :: str_iter rest
  end.

(** [prob /= rate]: a divisor equal to zero (of either sign) raises;
    otherwise the quotient is rounded to binary64. *)
Definition py_div (p r : float) : result float :=
  if (r =? 0)%float then Raise ZeroDivisionError else Ok (p / r)%float.

(** ** The vocabulary and the transform *)

(** Modelled from the spec: the vocabulary class is not part of
    [dataset.py]; the builders read its token-to-id dictionary [stoi], its
    size [len(vocab)] and its five reserved ids. *)
Record Vocab : Type := {
  stoi : gmap string Z;
  vocab_len : Z;
  pad_index : Z;
  unk_index : Z;
  sos_index : Z;
  eos_index : Z;
  mask_index : Z
}.

(** [PAD = 0] *)
Definition PAD : Z := 0.

(** [vocab.stoi.get(token, vocab.unk_index)] *)
Definition stoi_get (vocab : Vocab) (token : string) : Z :=
  default (unk_index vocab) (stoi vocab !! token).

(** The [transform] callable of a dataset: it rewrites and tokenizes a
    molecule string, may consume randomness and may raise. *)
Definition Transform : Type := string → M (list string).

(** ** Instances, samples and the shared masking routine *)

(** The values bound to the attributes of a dataset instance. *)
Inductive attr : Type :=
| AVocab (v : Vocab)
| AInt (z : Z)
| ABool (b : bool)
| AFloat (q : float)
| ACallable (f : Transform)
| AArray (a : list string)
| AFloats (a : list float).

(** [self.name]: a lookup in the instance dictionary. *)
Definition getattr (self : gmap string attr) (name : string) : result attr :=
  match self !! name with
  | Some a => Ok a
  | None => Raise AttributeError
  end.

(** [len(x)] on an attribute value. *)
Definition attr_len (a : attr) : result Z :=
  match a with
  | AArray l => Ok (py_len l)
  | AFloats l => Ok (py_len l)
  | AVocab v => Ok (vocab_len v)
  | _ => Raise TypeError
  end.

(** The values of a returned sample: an id array, an integer label or a
    regression target. *)
Inductive tensor : Type :=
| TInts (ids : list Z)
| TInt (z : Z)
| TFloat (q : float).

(** The [mask] method of [STDataset] and of [MSMDataset]: the two bodies
    differ only in the corruption rate, the literal [0.15] in the first and
    [self.rate] in the second. *)
Section Masking.
Context (vocab : Vocab) (is_train : bool) (rate : float).

(** The draw of one token: random when training, [1.0] otherwise. *)
Definition draw_prob : M float :=
  if is_train then random_random else mret 1%float.

(** One iteration of the loop: the ids it stores in [masked_ids[i]] and
    in [ans_ids[i]]. *)
Definition mask_token (token : string) : M (Z * Z) :=
  prob ← draw_prob;
  if (rate <? prob)%float then
    mret (stoi_get vocab token, PAD)
  else
    prob ← lift (py_div prob rate);
    masked ← (if (prob <? 0.8)%float then mret (mask_index vocab)
              else if (prob <? 0.9)%float then random_randrange (vocab_len vocab)
              else mret (stoi_get vocab token));
    mret (masked, stoi_get vocab token).

Fixpoint mask_loop (i : nat) (sm : list string) (masked_ids ans_ids : list pyval)
  : M (list pyval * list pyval) :=
  match sm with
  | [] => mret (masked_ids, ans_ids)
  | token :: rest =>
      '(m, a) ← mask_token token;
      masked_ids ← lift (py_setitem masked_ids i (PyInt m));
      ans_ids ← lift (py_setitem ans_ids i (PyInt a));
      mask_loop (S i) rest masked_ids ans_ids
  end.

Definition mask (sm : list string) : M (list pyval * list pyval) :=
  let n_token := py_len sm in
  mask_loop 0 sm (py_repeat PyNone n_token) (py_repeat PyNone n_token).

(** The iterations of the loop in order, without the arrays: the pair of
    ids of every token.  [mask_run] relates [mask] to it. *)
Fixpoint mask_tokens (sm : list string) : M (list (Z * Z)) :=
  match sm with
  | [] => mret []
  | token :: rest =>
      p ← mask_token token;
      ps ← mask_tokens rest;
      mret (p :: ps)
  end.
End Masking.

(** The value a caller reads under [key] in the sample of a run. *)
Definition field (key : string) (r : result (gmap string tensor * RandomState))
  : option tensor :=
  match r with
  | Ok (s, _) => s !! key
  | Raise _ => None
  end.

(** Truncation of a list of ids to [n] elements, then right-padding with
    [x] up to [n] elements. *)
Definition fit (n x : Z) (l : list Z) : list Z :=
  py_slice_to n l ++ py_repeat x (n - py_len (py_slice_to n l)).

(** The [encode] method of [ESOLDataset] and of [TSMDataset]. *)
Section Encoding.
Context (vocab : Vocab).

Fixpoint encode_loop (i : nat) (sm : list string) (coded_ids : list pyval)
  : result (list pyval) :=
  match sm with
  | [] => Ok coded_ids
  | token :: rest =>
      match py_setitem coded_ids i (PyInt (stoi_get vocab token)) with
      | Ok coded_ids => encode_loop (S i) rest coded_ids
      | Raise e => Raise e
      end
  end.

Definition encode (sm : list string) : result (list pyval) :=
  let n_token := py_len sm in
  encode_loop 0 sm (py_repeat PyNone n_token).
End Encoding.

(** [get_random_pair] of [STDataset] and of [TSMDataset]. *)
Definition get_random_pair (firsts seconds : list string) (index : Z) : M (string * Z) :=
  rand ← random_random;
  if (rand <? 0.5)%float then
    sm ← lift (np_getitem firsts index); mret (sm, 1)
  else
    sm ← lift (np_getitem seconds index); mret (sm, 0).

(** The column a constructor ends up with: all the rows when training, the
    first [max_size = 10000] of them otherwise. *)
Definition eval_cap {A} (is_train : bool) (data_size : Z) (column : list A) : list A :=
  let max_size := 10000 in
  if negb is_train && (max_size <? data_size) then py_slice_to max_size column
  else column.

(** The layout of a pair of id sequences: a leading [s], the first
    sequence, [e], the second sequence, [e]. *)
Definition pair_layout (s e : Z) (l1 l2 : list Z) : list Z :=
  [s] ++ l1 ++ [e] ++ l2 ++ [e].

(** The segment tags of a pair of sequences of [n1] and [n2] tokens. *)
Definition pair_tags (n1 n2 : nat) : list Z :=
  replicate (n1 + 2) 1 ++ replicate (n2 + 1) 2.

(** The segment tag of position [i] in a pair of [n1] and [n2] tokens: 1 on
    the first sequence and its two markers, 2 on the second sequence and
    its end marker, the pad id [pad] on the padding after them. *)
Definition segment_tag (pad : Z) (n1 n2 i : nat) : Z :=
  if decide (i < n1 + 2)%nat then 1
  else if decide (i < n1 + n2 + 3)%nat then 2
  else pad.

(** ** [class STDataset] *)

Module STDataset.

(** [__init__]: the instance dictionary after the constructor has run on
    the rows [df] of the corpus (pairs of a [first] and a [second]
    molecule string). *)
Definition __init__ (df : list (string * string)) (vocab : Vocab) (seq_len : Z)
    (transform : Transform) (is_train : bool) : gmap string attr :=
  let self : gmap string attr := ∅ in
  let self := <["vocab" := AVocab vocab]> self in
  let self := <["seq_len" := AInt seq_len]> self in
  let self := <["is_train" := ABool is_train]> self in
  let self := <["transform" := ACallable transform]> self in
  let data_size := py_len df in
  let self := <["data_size" := AInt data_size]> self in
  let firsts := df.*1 in
  let self := <["firsts" := AArray firsts]> self in
  let seconds := df.*2 in
  let self := <["seconds" := AArray seconds]> self in
  let max_size := 10000 in
  if negb is_train && (max_size <? data_size) then
    let self := <["firsts" := AArray (py_slice_to max_size firsts)]> self in
    let self := <["seconds" := AArray (py_slice_to max_size seconds)]> self in
    self
  else self.

(** [__len__]: [return len(self.smiles)] *)
Definition __len__ (self : gmap string attr) : result Z :=
  match getattr self "smiles" with
  | Ok a => attr_len a
  | Raise e => Raise e
  end.

(** The attributes that [__getitem__] and its helpers read. *)
Record t : Type := {
  vocab : Vocab;
  seq_len : Z;
  is_train : bool;
  transform : Transform;
  firsts : list string;
  seconds : list string
}.

Definition fields (self : gmap string attr) : result t :=
  match getattr self "vocab", getattr self "seq_len", getattr self "is_train",
        getattr self "transform", getattr self "firsts", getattr self "seconds" with
  | Ok (AVocab v), Ok (AInt n), Ok (ABool b), Ok (ACallable f), Ok (AArray a1), Ok (AArray a2) =>
      Ok {| vocab := v; seq_len := n; is_train := b; transform := f;
            firsts := a1; seconds := a2 |}
  | Raise e, _, _, _, _, _ | _, Raise e, _, _, _, _ | _, _, Raise e, _, _, _
  | _, _, _, Raise e, _, _ | _, _, _, _, Raise e, _ | _, _, _, _, _, Raise e => Raise e
  | _, _, _, _, _, _ => Raise TypeError
  end.

Definition get_random_pair (self : t) (index : Z) : M (string * Z) :=
  get_random_pair (firsts self) (seconds self) index.

Definition mask (self : t) (sm : list string) : M (list pyval * list pyval) :=
  mask (vocab self) (is_train self) 0.15%float sm.

(** First statements of [__getitem__]: the two molecule strings of the
    row, the pairing label, and their token sequences. *)
Definition resolve (self : t) (item : Z) : M (list string * list string * Z) :=
  sm1 ← lift (np_getitem (firsts self) item);
  '(sm2, is_same_label) ← get_random_pair self item;
  sm1 ← transform self sm1;
  sm2 ← transform self sm2;
  mret (sm1, sm2, is_same_label).

(** Rest of [__getitem__]: masking, markers, truncation, padding. *)
Definition build (self : t) (sm1 sm2 : list string) (is_same_label : Z)
  : M (gmap string tensor) :=
  '(masked_ids1, ans_ids1) ← mask self sm1;
  '(masked_ids2, ans_ids2) ← mask self sm2;
  let masked_ids1 :=
    [PyInt (sos_index (vocab self))] ++ masked_ids1 ++ [PyInt (eos_index (vocab self))] in
  let masked_ids2 := masked_ids2 ++ [PyInt (eos_index (vocab self))] in
  let ans_ids1 :=
    [PyInt (pad_index (vocab self))] ++ ans_ids1 ++ [PyInt (pad_index (vocab self))] in
  let ans_ids2 := ans_ids2 ++ [PyInt (pad_index (vocab self))] in
  let segment_embd :=
    py_slice_to (seq_len self)
      (py_repeat (PyInt 1) (py_len masked_ids1) ++ py_repeat (PyInt 2) (py_len masked_ids2)) in
  let bert_input := py_slice_to (seq_len self) (masked_ids1 ++ masked_ids2) in
  let bert_label := py_slice_to (seq_len self) (ans_ids1 ++ ans_ids2) in
  let padding :=
    py_repeat (PyInt (pad_index (vocab self))) (seq_len self - py_len bert_input) in
  let bert_input := bert_input ++ padding in
  let bert_label := bert_label ++ padding in
  let segment_embd := segment_embd ++ padding in
  bert_input ← lift (torch_tensor bert_input);
  bert_label ← lift (torch_tensor bert_label);
  segment_embd ← lift (torch_tensor segment_embd);
  mret (<["bert_input" := TInts bert_input]>
        (<["bert_label" := TInts bert_label]>
         (<["segment_embd" := TInts segment_embd]>
          (<["is_same" := TInt is_same_label]> ∅)))).

Definition getitem (self : t) (item : Z) : M (gmap string tensor) :=
  '(sm1, sm2, is_same_label) ← resolve self item;
  build self sm1 sm2 is_same_label.

(** [__getitem__]: the attribute reads, then the body of the method. *)
Definition __getitem__ (self : gmap string attr) (item : Z) : M (gmap string tensor) :=
  st ← lift (fields self); getitem st item.

End STDataset.

(** ** [class Seq2seqDataset] *)

Module Seq2seqDataset.

(** [__init__] on the [first] column [df] of the corpus. *)
Definition __init__ (df : list string) (vocab : Vocab) (seq_len : Z)
    (transform : Transform) (is_train : bool) : gmap string attr :=
  let self : gmap string attr := ∅ in
  let self := <["vocab" := AVocab vocab]> self in
  let self := <["seq_len" := AInt seq_len]> self in
  let self := <["is_train" := ABool is_train]> self in
  let self := <["transform" := ACallable transform]> self in
  let data_size := py_len df in
  let self := <["data_size" := AInt data_size]> self in
  let smiles := df in
  let self := <["smiles" := AArray smiles]> self in
  let max_size := 10000 in
  if negb is_train && (max_size <? data_size) then
    <["smiles" := AArray (py_slice_to max_size smiles)]> self
  else self.

(** [__len__]: [return len(self.smiles)] *)
Definition __len__ (self : gmap string attr) : result Z :=
  match getattr self "smiles" with
  | Ok a => attr_len a
  | Raise e => Raise e
  end.

Record t : Type := {
  vocab : Vocab;
  seq_len : Z;
  transform : Transform;
  smiles : list string
}.

Definition fields (self : gmap string attr) : result t :=
  match getattr self "vocab", getattr self "seq_len",
        getattr self "transform", getattr self "smiles" with
  | Ok (AVocab v), Ok (AInt n), Ok (ACallable f), Ok (AArray a) =>
      Ok {| vocab := v; seq_len := n; transform := f; smiles := a |}
  | Raise e, _, _, _ | _, Raise e, _, _ | _, _, Raise e, _ | _, _, _, Raise e => Raise e
  | _, _, _, _ => Raise TypeError
  end.

(** One of the two views: tokens to ids, markers, padding (no slice). *)
Definition view (self : t) (sm : list string) : list pyval :=
  let content := (λ token, PyInt (stoi_get (vocab self) token)) <$> sm in
  let input := [PyInt (sos_index (vocab self))] ++ content ++ [PyInt (eos_index (vocab self))] in
  let padding := py_repeat (PyInt (pad_index (vocab self))) (seq_len self - py_len input) in
  input ++ padding.

Definition getitem (self : t) (item : Z) : M (list Z * list Z) :=
  sm ← lift (np_getitem (smiles self) item);
  sm1 ← transform self sm;
  let input1 := view self sm1 in
  sm2 ← transform self sm;
  let input2 := view self sm2 in
  input1 ← lift (torch_tensor input1);
  input2 ← lift (torch_tensor input2);
  mret (input1, input2).

Definition __getitem__ (self : gmap string attr) (item : Z) : M (list Z * list Z) :=
  st ← lift (fields self); getitem st item.

End Seq2seqDataset.

(** ** [class ESOLDataset] *)

Module ESOLDataset.

(** [__init__] on the rows [df] of the corpus (a [SMILES] string and its
    [solubility]). *)
Definition __init__ (df : list (string * float)) (vocab : Vocab) (seq_len : Z)
    (transform : Transform) : gmap string attr :=
  let self : gmap string attr := ∅ in
  let self := <["vocab" := AVocab vocab]> self in
  let self := <["seq_len" := AInt seq_len]> self in
  let self := <["transform" := ACallable transform]> self in
  let self := <["data_size" := AInt (py_len df)]> self in
  let self := <["smiles" := AArray (df.*1)]> self in
  let self := <["Y" := AFloats (df.*2)]> self in
  self.

(** [__len__]: [return self.data_size] *)
Definition __len__ (self : gmap string attr) : result Z :=
  match getattr self "data_size" with
  | Ok (AInt n) => Ok n
  | Ok _ => Raise TypeError
  | Raise e => Raise e
  end.

Record t : Type := {
  vocab : Vocab;
  seq_len : Z;
  transform : Transform;
  smiles : list string;
  Y : list float
}.

Definition fields (self : gmap string attr) : result t :=
  match getattr self "vocab", getattr self "seq_len", getattr self "transform",
        getattr self "smiles", getattr self "Y" with
  | Ok (AVocab v), Ok (AInt n), Ok (ACallable f), Ok (AArray a), Ok (AFloats y) =>
      Ok {| vocab := v; seq_len := n; transform := f; smiles := a; Y := y |}
  | Raise e, _, _, _, _ | _, Raise e, _, _, _ | _, _, Raise e, _, _
  | _, _, _, Raise e, _ | _, _, _, _, Raise e => Raise e
  | _, _, _, _, _ => Raise TypeError
  end.

Definition encode (self : t) (sm : list string) : result (list pyval) :=
  encode (vocab self) sm.

(** First statements of [__getitem__]: the row and its token sequence. *)
Definition resolve (self : t) (item : Z) : M (list string * float) :=
  sm ← lift (np_getitem (smiles self) item);
  y ← lift (np_getitem (Y self) item);
  sm ← transform self sm;
  mret (sm, y).

Definition build (self : t) (sm : list string) (y : float) : M (gmap string tensor) :=
  sm ← lift (encode self sm);
  let masked_ids :=
    [PyInt (sos_index (vocab self))] ++ sm ++ [PyInt (eos_index (vocab self))] in
  let segment_embd := py_repeat (PyInt 1) (py_len masked_ids) in
  let bert_input := py_slice_to (seq_len self) masked_ids in
  let padding :=
    py_repeat (PyInt (pad_index (vocab self))) (seq_len self - py_len bert_input) in
  let bert_input := bert_input ++ padding in
  let segment_embd := segment_embd ++ padding in
  bert_input ← lift (torch_tensor bert_input);
  segment_embd ← lift (torch_tensor segment_embd);
  mret (<["bert_input" := TInts bert_input]>
        (<["segment_embd" := TInts segment_embd]>
         (<["target" := TFloat y]> ∅))).

Definition getitem (self : t) (item : Z) : M (gmap string tensor) :=
  '(sm, y) ← resolve self item; build self sm y.

Definition __getitem__ (self : gmap string attr) (item : Z) : M (gmap string tensor) :=
  st ← lift (fields self); getitem st item.

End ESOLDataset.

(** ** [class TSMDataset] *)

Module TSMDataset.

Definition __init__ (df : list (string * string)) (vocab : Vocab) (seq_len : Z)
    (transform : Transform) (is_train : bool) : gmap string attr :=
  let self : gmap string attr := ∅ in
  let self := <["vocab" := AVocab vocab]> self in
  let self := <["seq_len" := AInt seq_len]> self in
  let self := <["is_train" := ABool is_train]> self in
  let self := <["transform" := ACallable transform]> self in
  let self := <["data_size" := AInt (py_len df)]> self in
  let self := <["firsts" := AArray (df.*1)]> self in
  let self := <["seconds" := AArray (df.*2)]> self in
  self.

(** [__len__]: [return self.data_size] *)
Definition __len__ (self : gmap string attr) : result Z :=
  match getattr self "data_size" with
  | Ok (AInt n) => Ok n
  | Ok _ => Raise TypeError
  | Raise e => Raise e
  end.

Record t : Type := {
  vocab : Vocab;
  seq_len : Z;
  firsts : list string;
  seconds : list string
}.

Definition fields (self : gmap string attr) : result t :=
  match getattr self "vocab", getattr self "seq_len",
        getattr self "firsts", getattr self "seconds" with
  | Ok (AVocab v), Ok (AInt n), Ok (AArray a1), Ok (AArray a2) =>
      Ok {| vocab := v; seq_len := n; firsts := a1; seconds := a2 |}
  | Raise e, _, _, _ | _, Raise e, _, _ | _, _, Raise e, _ | _, _, _, Raise e => Raise e
  | _, _, _, _ => Raise TypeError
  end.

Definition get_random_pair (self : t) (index : Z) : M (string * Z) :=
  get_random_pair (firsts self) (seconds self) index.

(** [encode] receives the molecule string itself and walks its characters. *)
Definition encode (self : t) (sm : string) : result (list pyval) :=
  encode (vocab self) (str_iter sm).

(** First statement of [__getitem__]: the two molecule strings of the
    row and the pairing label. *)
Definition resolve (self : t) (item : Z) : M (string * string * Z) :=
  sm1 ← lift (np_getitem (firsts self) item);
  '(sm2, is_same_label) ← get_random_pair self item;
  mret (sm1, sm2, is_same_label).

Definition build (self : t) (sm1 sm2 : string) (is_same_label : Z)
  : M (gmap string tensor) :=
  sm1 ← lift (encode self sm1);
  sm2 ← lift (encode self sm2);
  let sm1 := [PyInt (sos_index (vocab self))] ++ sm1 ++ [PyInt (eos_index (vocab self))] in
  let sm2 := sm2 ++ [PyInt (eos_index (vocab self))] in
  let segment_embd :=
    py_slice_to (seq_len self)
      (py_repeat (PyInt 1) (py_len sm1) ++ py_repeat (PyInt 2) (py_len sm2)) in
  let bert_input := py_slice_to (seq_len self) (sm1 ++ sm2) in
  let padding :=
    py_repeat (PyInt (pad_index (vocab self))) (seq_len self - py_len bert_input) in
  let bert_input := bert_input ++ padding in
  let segment_embd := segment_embd ++ padding in
  bert_input ← lift (torch_tensor bert_input);
  segment_embd ← lift (torch_tensor segment_embd);
  mret (<["bert_input" := TInts bert_input]>
        (<["segment_embd" := TInts segment_embd]>
         (<["is_same" := TInt is_same_label]> ∅))).

Definition getitem (self : t) (item : Z) : M (gmap string tensor) :=
  '(sm1, sm2, is_same_label) ← resolve self item;
  build self sm1 sm2 is_same_label.

Definition __getitem__ (self : gmap string attr) (item : Z) : M (gmap string tensor) :=
  st ← lift (fields self); getitem st item.

End TSMDataset.

(** ** [class MSMDataset] *)

Module MSMDataset.

Definition __init__ (df : list string) (vocab : Vocab) (seq_len : Z)
    (transform : Transform) (is_train : bool) (rate : float) : gmap string attr :=
  let self : gmap string attr := ∅ in
  let self := <["vocab" := AVocab vocab]> self in
  let self := <["seq_len" := AInt seq_len]> self in
  let self := <["is_train" := ABool is_train]> self in
  let self := <["transform" := ACallable transform]> self in
  let firsts := df in
  let self := <["firsts" := AArray firsts]> self in
  let self := <["data_size" := AInt (py_len firsts)]> self in
  let self := <["rate" := AFloat rate]> self in
  self.

(** [__len__]: [return self.data_size] *)
Definition __len__ (self : gmap string attr) : result Z :=
  match getattr self "data_size" with
  | Ok (AInt n) => Ok n
  | Ok _ => Raise TypeError
  | Raise e => Raise e
  end.

Record t : Type := {
  vocab : Vocab;
  seq_len : Z;
  is_train : bool;
  transform : Transform;
  firsts : list string;
  rate : float
}.

Definition fields (self : gmap string attr) : result t :=
  match getattr self "vocab", getattr self "seq_len", getattr self "is_train",
        getattr self "transform", getattr self "firsts", getattr self "rate" with
  | Ok (AVocab v), Ok (AInt n), Ok (ABool b), Ok (ACallable f), Ok (AArray a), Ok (AFloat r) =>
      Ok {| vocab := v; seq_len := n; is_train := b; transform := f;
            firsts := a; rate := r |}
  | Raise e, _, _, _, _, _ | _, Raise e, _, _, _, _ | _, _, Raise e, _, _, _
  | _, _, _, Raise e, _, _ | _, _, _, _, Raise e, _ | _, _, _, _, _, Raise e => Raise e
  | _, _, _, _, _, _ => Raise TypeError
  end.

Definition mask (self : t) (sm : list string) : M (list pyval * list pyval) :=
  mask (vocab self) (is_train self) (rate self) sm.

(** First statements of [__getitem__]: two token sequences of the same
    molecule string. *)
Definition resolve (self : t) (item : Z) : M (list string * list string) :=
  sm1 ← lift (np_getitem (firsts self) item);
  sm2 ← lift (np_getitem (firsts self) item);
  sm1 ← transform self sm1;
  sm2 ← transform self sm2;
  mret (sm1, sm2).

Definition build (self : t) (sm1 sm2 : list string) : M (gmap string tensor) :=
  '(masked_ids1, ans_ids1) ← mask self sm1;
  '(masked_ids2, ans_ids2) ← mask self sm2;
  let masked_ids1 :=
    [PyInt (sos_index (vocab self))] ++ masked_ids1 ++ [PyInt (eos_index (vocab self))] in
  let masked_ids2 := masked_ids2 ++ [PyInt (eos_index (vocab self))] in
  let ans_ids1 :=
    [PyInt (pad_index (vocab self))] ++ ans_ids1 ++ [PyInt (pad_index (vocab self))] in
  let ans_ids2 := ans_ids2 ++ [PyInt (pad_index (vocab self))] in
  let segment_embd :=
    py_slice_to (seq_len self)
      (py_repeat (PyInt 1) (py_len masked_ids1) ++ py_repeat (PyInt 2) (py_len masked_ids2)) in
  let bert_input := py_slice_to (seq_len self) (masked_ids1 ++ masked_ids2) in
  let bert_label := py_slice_to (seq_len self) (ans_ids1 ++ ans_ids2) in
  let padding :=
    py_repeat (PyInt (pad_index (vocab self))) (seq_len self - py_len bert_input) in
  let bert_input := bert_input ++ padding in
  let bert_label := bert_label ++ padding in
  let segment_embd := segment_embd ++ padding in
  bert_input ← lift (torch_tensor bert_input);
  bert_label ← lift (torch_tensor bert_label);
  segment_embd ← lift (torch_tensor segment_embd);
  mret (<["bert_input" := TInts bert_input]>
        (<["bert_label" := TInts bert_label]>
         (<["segment_embd" := TInts segment_embd]> ∅))).

Definition getitem (self : t) (item : Z) : M (gmap string tensor) :=
  '(sm1, sm2) ← resolve self item; build self sm1 sm2.

Definition __getitem__ (self : gmap string attr) (item : Z) : M (gmap string tensor) :=
  st ← lift (fields self); getitem st item.

End MSMDataset.

(** ** Concrete inputs used by the examples *)

(** The vocabulary of the example scenarios:
    [{pad:0, unk:1, sos:2, eos:3, mask:4, "C":5, "O":6}]. *)
Definition example_vocab : Vocab := {|
  stoi := list_to_map [("pad", 0); ("unk", 1); ("sos", 2); ("eos", 3); ("mask", 4);
                       ("C", 5); ("O", 6)];
  vocab_len := 7;
  pad_index := 0;
  unk_index := 1;
  sos_index := 2;
  eos_index := 3;
  mask_index := 4
|}.

(** A transform that does not rewrite: one token per character. *)
Definition char_tokens : Transform := λ sm, mret (str_iter sm).

(** A vocabulary whose pad id is not 0:
    [{unk:1, sos:2, eos:3, mask:4, "C":5, "O":6, pad:7}]. *)
Definition pad7_vocab : Vocab := {|
  stoi := list_to_map [("unk", 1); ("sos", 2); ("eos", 3); ("mask", 4);
                       ("C", 5); ("O", 6); ("pad", 7)];
  vocab_len := 8;
  pad_index := 7;
  unk_index := 1;
  sos_index := 2;
  eos_index := 3;
  mask_index := 4
|}.

(** The raw draw whose [random.random()] value is exactly 0.5. *)
Definition half : Z := 2 ^ 52.

(** The raw draw whose [random.random()] value is the binary64 value of
    [0.12]: divided by [0.15] it gives the binary64 value of [0.8] itself,
    whereas the quotient of the two values taken exactly lies below it. *)
Definition draw_012 : Z := 1080863910568919.


(** * Properties *)

(** ** The monad *)

Lemma bind_run {A B} (m : M A) (k : A → M B) (g : RandomState) :
  (m ≫= k) g = match m g with Ok (a, g') => k a g' | Raise e => Raise e end.
Proof. reflexivity. Qed.

Lemma ret_run {A} (a : A) (g : RandomState) : (mret a : M A) g = Ok (a, g).
Proof. reflexivity. Qed.

Lemma lift_ok_run {A} (a : A) (g : RandomState) : lift (Ok a) g = Ok (a, g).
Proof. reflexivity. Qed.

Lemma bind_ok_inv {A B} (m : M A) (k : A → M B) g r :
  (m ≫= k) g = Ok r → ∃ a g1, m g = Ok (a, g1) ∧ k a g1 = Ok r.
Proof.
  rewrite bind_run. destruct (m g) as [[a g1]|e]; [eauto | discriminate].
Qed.

Lemma lift_ok_inv {A} (r : result A) g a g' :
  lift r g = Ok (a, g') → r = Ok a ∧ g' = g.
Proof. destruct r; cbn; intros H; inversion H; auto. Qed.

Lemma ret_ok_inv {A} (a b : A) (g g' : RandomState) :
  (mret a : M A) g = Ok (b, g') → b = a ∧ g' = g.
Proof. cbn. unfold ret. intros H; inversion H; auto. Qed.

(** ** Python lists *)

Lemma py_len_fmap {A B} (f : A → B) (l : list A) : py_len (f <$> l) = py_len l.
Proof. unfold py_len. by rewrite length_fmap. Qed.

Lemma py_len_app {A} (l k : list A) : py_len (l ++ k) = py_len l + py_len k.
Proof. unfold py_len. rewrite length_app. lia. Qed.

Lemma py_len_repeat {A} (x : A) (n : Z) : py_len (py_repeat x n) = Z.max 0 n.
Proof. unfold py_len, py_repeat. rewrite length_replicate. lia. Qed.

Lemma py_len_nonneg {A} (l : list A) : 0 ≤ py_len l.
Proof. unfold py_len. lia. Qed.

Lemma py_repeat_fmap {A B} (f : A → B) (x : A) (n : Z) :
  py_repeat (f x) n = f <$> py_repeat x n.
Proof. unfold py_repeat. by rewrite fmap_replicate. Qed.

Lemma py_slice_to_fmap {A B} (f : A → B) (n : Z) (l : list A) :
  py_slice_to n (f <$> l) = f <$> py_slice_to n l.
Proof.
  unfold py_slice_to. rewrite py_len_fmap. destruct (0 <=? n); by rewrite fmap_take.
Qed.

Lemma py_len_slice_to {A} (n : Z) (l : list A) :
  0 ≤ n → py_len (py_slice_to n l) = Z.min n (py_len l).
Proof.
  intros Hn. unfold py_slice_to, py_len.
  destruct (Z.leb_spec 0 n); [|lia]. rewrite length_take. lia.
Qed.

Lemma py_len_slice_to_eq {A B} (n : Z) (l : list A) (k : list B) :
  py_len l = py_len k → py_len (py_slice_to n l) = py_len (py_slice_to n k).
Proof.
  unfold py_slice_to, py_len. intros H.
  destruct (0 <=? n); rewrite !length_take; lia.
Qed.

Lemma py_len_fit (n x : Z) (l : list Z) : 0 ≤ n → py_len (fit n x l) = n.
Proof.
  intros Hn. unfold fit.
  rewrite py_len_app, py_len_repeat, py_len_slice_to by done.
  pose proof (py_len_nonneg l). lia.
Qed.

Lemma torch_tensor_ints (l : list Z) : torch_tensor (PyInt <$> l) = Ok l.
Proof. induction l as [|z l IH]; cbn; [done|]. by rewrite IH. Qed.

Lemma py_setitem_lt {A} (l : list A) (i : nat) (x : A) :
  (i < length l)%nat → py_setitem l i x = Ok (<[i := x]> l).
Proof. intros H. unfold py_setitem. by rewrite decide_True. Qed.

(** ** Binary64 comparisons *)

Lemma SFcompare_antisym (x y : spec_float) :
  SFcompare y x = option_map CompOpp (SFcompare x y).
Proof.
  destruct x as [[]|[]| |[] m1 e1], y as [[]|[]| |[] m2 e2]; simpl; try reflexivity.
  all: rewrite (Z.compare_antisym e1 e2); destruct (e1 ?= e2); simpl; try reflexivity.
  all: pose proof (Pos.compare_cont_antisym m1 m2 Eq) as H; simpl in H; rewrite <- H.
  all: destruct (Pos.compare_cont Eq m1 m2); reflexivity.
Qed.

(** [a <= x] excludes [x < a]. *)
Lemma float_leb_not_ltb (a x : float) :
  (a <=? x)%float = true → (x <? a)%float = false.
Proof.
  rewrite FloatAxioms.leb_spec, FloatAxioms.ltb_spec. unfold SFleb, SFltb.
  rewrite (SFcompare_antisym (Prim2SF a) (Prim2SF x)).
  destruct (SFcompare (Prim2SF a) (Prim2SF x)) as [[]|]; simpl; congruence.
Qed.

Lemma SFleb_SFltb_finite (ma mb : positive) (e : Z) (x : spec_float) :
  (ma < mb)%positive →
  SFleb (S754_finite false mb e) x = true →
  SFltb x (S754_finite false ma e) = false.
Proof.
  intros Hm. unfold SFleb, SFltb, SFcompare.
  destruct x as [[]|[]| |[] m e']; try congruence.
  rewrite (Z.compare_antisym e' e).
  destruct (Z.compare_spec e' e) as [->|He|He]; cbn [CompOpp]; try congruence.
  rewrite !Pos.compare_cont_spec.
  destruct (Pos.compare_spec mb m) as [->|H1|H1]; cbn [Pos.switch_Eq]; try congruence.
  all: intros _; destruct (Pos.compare_spec m ma) as [->|H2|H2];
    cbn [Pos.switch_Eq]; try reflexivity; lia.
Qed.

Lemma Prim2SF_08 : Prim2SF 0.8 = S754_finite false 7205759403792794 (-53).
Proof. vm_compute. reflexivity. Qed.

Lemma Prim2SF_09 : Prim2SF 0.9 = S754_finite false 8106479329266893 (-53).
Proof. vm_compute. reflexivity. Qed.

(** [0.9 <= x] excludes [x < 0.8]. *)
Lemma float_ge_09_not_lt_08 (x : float) :
  (0.9 <=? x)%float = true → (x <? 0.8)%float = false.
Proof.
  rewrite FloatAxioms.leb_spec, FloatAxioms.ltb_spec, Prim2SF_08, Prim2SF_09.
  apply SFleb_SFltb_finite. reflexivity.
Qed.

(** Two values equal to zero are not below one another. *)
Lemma float_zero_not_ltb (r p : float) :
  (r =? 0)%float = true → (p =? 0)%float = true → (r <? p)%float = false.
Proof.
  rewrite !FloatAxioms.eqb_spec, FloatAxioms.ltb_spec. change (Prim2SF 0) with (S754_zero false).
  unfold SFeqb, SFltb, SFcompare.
  destruct (Prim2SF r) as [[]|[]| |[] ? ?], (Prim2SF p) as [[]|[]| |[] ? ?];
    congruence.
Qed.

(** ** The masking loop *)

Section MaskingFacts.
Context (vocab : Vocab) (is_train : bool) (rate : float).

Lemma mask_tokens_length sm g ps g' :
  mask_tokens vocab is_train rate sm g = Ok (ps, g') → length ps = length sm.
Proof.
  revert g ps g'. induction sm as [|token rest IH]; intros g ps g' H.
  - apply ret_ok_inv in H as [-> _]. done.
  - cbn [mask_tokens] in H.
    apply bind_ok_inv in H as (p & g1 & _ & H).
    apply bind_ok_inv in H as (ps' & g2 & Hrest & H).
    apply ret_ok_inv in H as [-> _]. cbn. f_equal. eauto.
Qed.

(** The loop fills the slots [i], [i+1], ... of the two arrays with the
    ids of [mask_tokens] and leaves the other slots alone. *)
Lemma mask_loop_run sm : ∀ i masked_ids ans_ids g,
  (i + length sm ≤ length masked_ids)%nat →
  (i + length sm ≤ length ans_ids)%nat →
  mask_loop vocab is_train rate i sm masked_ids ans_ids g =
  match mask_tokens vocab is_train rate sm g with
  | Ok (ps, g') =>
      Ok ((take i masked_ids ++ (PyInt <$> ps.*1) ++ drop (i + length sm) masked_ids,
           take i ans_ids ++ (PyInt <$> ps.*2) ++ drop (i + length sm) ans_ids), g')
  | Raise e => Raise e
  end.
Proof.
  induction sm as [|token rest IH]; intros i masked_ids ans_ids g Hm Ha.
  - cbn. unfold ret. rewrite Nat.add_0_r, !take_drop. done.
  - cbn [mask_loop mask_tokens length] in *. rewrite !bind_run.
    destruct (mask_token vocab is_train rate token g) as [[[m a] g1]|e]; [|done].
    rewrite !bind_run, py_setitem_lt, lift_ok_run by lia.
    rewrite !bind_run, py_setitem_lt, lift_ok_run by lia.
    rewrite IH by (rewrite length_insert; lia).
    destruct (mask_tokens vocab is_train rate rest g1) as [[ps g2]|e]; [|done].
    rewrite ret_run. cbn [fmap list_fmap fst snd].
    assert (Hi : ∀ (l : list pyval) x, (i + S (length rest) ≤ length l)%nat →
              take (S i) (<[i := x]> l) = take i l ++ [x]).
    { intros l x Hl. rewrite (take_S_r _ _ x) by (apply list_lookup_insert_eq; lia).
      by rewrite take_insert_ge by lia. }
    rewrite !Hi by done.
    rewrite !drop_insert_lt by lia.
    replace (S i + length rest)%nat with (i + S (length rest))%nat by lia.
    rewrite <- !app_assoc. done.
Qed.

(** [mask] returns the ids of [mask_tokens] as two Python lists. *)
Lemma mask_run sm g :
  mask vocab is_train rate sm g =
  match mask_tokens vocab is_train rate sm g with
  | Ok (ps, g') => Ok ((PyInt <$> ps.*1, PyInt <$> ps.*2), g')
  | Raise e => Raise e
  end.
Proof.
  unfold mask, py_repeat, py_len. rewrite Nat2Z.id.
  rewrite mask_loop_run by (rewrite length_replicate; lia).
  destruct (mask_tokens vocab is_train rate sm g) as [[ps g']|e]; [|done].
  rewrite !take_0, drop_ge, !app_nil_r by (rewrite length_replicate; lia).
  done.
Qed.

Lemma mask_tokens_app pre post g :
  mask_tokens vocab is_train rate (pre ++ post) g =
  match mask_tokens vocab is_train rate pre g with
  | Ok (ps1, g1) =>
      match mask_tokens vocab is_train rate post g1 with
      | Ok (ps2, g2) => Ok (ps1 ++ ps2, g2)
      | Raise e => Raise e
      end
  | Raise e => Raise e
  end.
Proof.
  revert g. induction pre as [|token rest IH]; intros g.
  - cbn. unfold ret. by destruct (mask_tokens vocab is_train rate post g) as [[??]|?].
  - cbn [app mask_tokens]. rewrite !bind_run.
    destruct (mask_token vocab is_train rate token g) as [[p g1]|e]; [|done].
    rewrite !bind_run, IH.
    destruct (mask_tokens vocab is_train rate rest g1) as [[ps1 g2]|e]; [|done].
    rewrite ret_run.
    destruct (mask_tokens vocab is_train rate post g2) as [[ps2 g3]|e]; done.
Qed.
End MaskingFacts.

(** ** One token of the masking loop *)

Section TokenFacts.
Context (vocab : Vocab) (is_train : bool) (rate : float).

Lemma draw_prob_eval g : draw_prob false g = Ok (1%float, g).
Proof. reflexivity. Qed.

Lemma draw_prob_returns g : ∃ p g1, draw_prob is_train g = Ok (p, g1).
Proof. unfold draw_prob. destruct is_train; cbn; eauto. Qed.

Lemma py_div_ok p r p' :
  py_div p r = Ok p' → p' = (p / r)%float ∧ (r =? 0)%float = false.
Proof.
  unfold py_div. destruct (r =? 0)%float; [discriminate|].
  intros H; inversion H; done.
Qed.

Lemma py_div_returns p r : (r =? 0)%float = false → py_div p r = Ok (p / r)%float.
Proof. intros Hr. unfold py_div. by rewrite Hr. Qed.

Lemma random_randrange_run n g :
  0 < n →
  random_randrange n g
  = Ok (tape g (cursor g) mod n, {| tape := tape g; cursor := S (cursor g) |}).
Proof.
  intros Hn. unfold random_randrange. destruct (Z.leb_spec n 0); [lia|]. reflexivity.
Qed.

Lemma random_randrange_ok n g k g' :
  random_randrange n g = Ok (k, g') → 0 ≤ k < n.
Proof.
  unfold random_randrange. destruct (Z.leb_spec n 0) as [|Hn]; [discriminate|].
  cbn. unfold ret. intros Hk; inversion Hk. apply Z.mod_pos_bound. lia.
Qed.

(** Every id of the range is the outcome of some draw. *)
Lemma random_randrange_any n k :
  0 ≤ k < n → ∃ g g', random_randrange n g = Ok (k, g').
Proof.
  intros Hk. exists (replay [k]). eexists.
  rewrite random_randrange_run by lia. cbn. by rewrite Z.mod_small.
Qed.

Lemma mask_token_keep token g p g1 :
  draw_prob is_train g = Ok (p, g1) → (rate <? p)%float = true →
  mask_token vocab is_train rate token g = Ok ((stoi_get vocab token, PAD), g1).
Proof.
  intros Hp Hlt. unfold mask_token. by rewrite bind_run, Hp, Hlt.
Qed.

Lemma mask_token_corrupt token g p g1 p' :
  draw_prob is_train g = Ok (p, g1) → (rate <? p)%float = false →
  py_div p rate = Ok p' →
  mask_token vocab is_train rate token g =
  if (p' <? 0.8)%float then Ok ((mask_index vocab, stoi_get vocab token), g1)
  else if (p' <? 0.9)%float then
    match random_randrange (vocab_len vocab) g1 with
    | Ok (k, g2) => Ok ((k, stoi_get vocab token), g2)
    | Raise e => Raise e
    end
  else Ok ((stoi_get vocab token, stoi_get vocab token), g1).
Proof.
  intros Hp Hle Hdiv. unfold mask_token. rewrite bind_run, Hp, Hle.
  rewrite bind_run, Hdiv, lift_ok_run, bind_run.
  destruct (p' <? 0.8)%float; [done|].
  destruct (p' <? 0.9)%float; [|done].
  by destruct (random_randrange (vocab_len vocab) g1) as [[k g2]|e].
Qed.

(** A token whose draw does not exceed the rate and whose iteration
    returns: the division did not raise, its quotient is [p / rate]. *)
Lemma mask_token_corrupt_inv token g p g1 r g' :
  draw_prob is_train g = Ok (p, g1) → (rate <? p)%float = false →
  mask_token vocab is_train rate token g = Ok (r, g') →
  py_div p rate = Ok (p / rate)%float.
Proof.
  intros Hp Hle. unfold mask_token. rewrite bind_run, Hp, Hle, bind_run.
  unfold py_div. destruct (rate =? 0)%float; [discriminate|done].
Qed.

Lemma mask_ok_inv sm g masked_ids ans_ids g' :
  mask vocab is_train rate sm g = Ok ((masked_ids, ans_ids), g') →
  ∃ ps, mask_tokens vocab is_train rate sm g = Ok (ps, g')
        ∧ masked_ids = PyInt <$> ps.*1 ∧ ans_ids = PyInt <$> ps.*2.
Proof.
  rewrite mask_run.
  destruct (mask_tokens vocab is_train rate sm g) as [[ps g1]|e]; [|discriminate].
  intros H; inversion H; subst. eauto.
Qed.

(** The slots of one token of a sequence are the ids its iteration
    computes, in the random state the tokens before it leave behind. *)
Lemma mask_middle pre token post g r1 g1 masked_ids ans_ids g' :
  mask vocab is_train rate pre g = Ok (r1, g1) →
  mask vocab is_train rate (pre ++ token :: post) g = Ok ((masked_ids, ans_ids), g') →
  ∃ m a g2, mask_token vocab is_train rate token g1 = Ok ((m, a), g2)
            ∧ masked_ids !! length pre = Some (PyInt m)
            ∧ ans_ids !! length pre = Some (PyInt a).
Proof.
  destruct r1 as [m1 a1]. intros Hpre Hall.
  apply mask_ok_inv in Hpre as (ps1 & Hpre & _ & _).
  apply mask_ok_inv in Hall as (ps & Hall & -> & ->).
  rewrite mask_tokens_app, Hpre in Hall. cbn [mask_tokens] in Hall.
  rewrite bind_run in Hall.
  destruct (mask_token vocab is_train rate token g1) as [[[m a] g2]|e]; [|done].
  rewrite bind_run in Hall.
  destruct (mask_tokens vocab is_train rate post g2) as [[ps2 g3]|e]; [|done].
  rewrite ret_run in Hall. inversion Hall; subst.
  exists m, a, g2. apply mask_tokens_length in Hpre.
  rewrite !fmap_app, !fmap_cons. cbn [fst snd].
  split; [done|]. split.
  - rewrite <- Hpre, <- (length_fmap fst ps1), <- (length_fmap PyInt).
    apply list_lookup_middle. done.
  - rewrite <- Hpre, <- (length_fmap snd ps1), <- (length_fmap PyInt).
    apply list_lookup_middle. done.
Qed.
End TokenFacts.

(** ** The encoding loop and the tensors of a sample *)

Lemma encode_loop_run vocab sm : ∀ i coded_ids,
  (i + length sm ≤ length coded_ids)%nat →
  encode_loop vocab i sm coded_ids =
  Ok (take i coded_ids ++ (PyInt <$> (stoi_get vocab <$> sm))
      ++ drop (i + length sm) coded_ids).
Proof.
  induction sm as [|token rest IH]; intros i coded_ids Hlen.
  - cbn. by rewrite Nat.add_0_r, take_drop.
  - cbn [encode_loop length] in *. rewrite py_setitem_lt by lia.
    rewrite IH by (rewrite length_insert; lia).
    rewrite (take_S_r _ _ (PyInt (stoi_get vocab token)))
      by (apply list_lookup_insert_eq; lia).
    rewrite take_insert_ge, drop_insert_lt by lia.
    replace (S i + length rest)%nat with (i + S (length rest))%nat by lia.
    rewrite <- app_assoc. done.
Qed.

Lemma encode_run vocab sm :
  encode vocab sm = Ok (PyInt <$> (stoi_get vocab <$> sm)).
Proof.
  unfold encode, py_repeat, py_len. rewrite Nat2Z.id.
  rewrite encode_loop_run by (rewrite length_replicate; lia).
  by rewrite take_0, drop_ge, app_nil_r by (rewrite length_replicate; lia).
Qed.

(** The tensor of a sliced and padded Python list of numbers. *)
Lemma tensor_of_ids (ids : list Z) (l k : list pyval) (n x : Z) :
  l = PyInt <$> ids → py_len k = py_len ids →
  torch_tensor (py_slice_to n l ++ py_repeat (PyInt x) (n - py_len (py_slice_to n k)))
  = Ok (fit n x ids).
Proof.
  intros -> Hk. rewrite py_slice_to_fmap, py_repeat_fmap, <- fmap_app.
  rewrite torch_tensor_ints. unfold fit.
  by rewrite (py_len_slice_to_eq n k ids).
Qed.

Lemma pair_layout_fmap (s e : Z) (l1 l2 : list Z) :
  ([PyInt s] ++ (PyInt <$> l1) ++ [PyInt e]) ++ (PyInt <$> l2) ++ [PyInt e]
  = PyInt <$> pair_layout s e l1 l2.
Proof. unfold pair_layout. rewrite !fmap_app, <- !app_assoc. done. Qed.

Lemma py_len_pair_layout (s e : Z) (l1 l2 : list Z) :
  py_len (pair_layout s e l1 l2) = py_len l1 + py_len l2 + 3.
Proof. unfold pair_layout. rewrite !py_len_app. unfold py_len. cbn. lia. Qed.

Lemma pair_tags_fmap (s e : Z) (l1 l2 : list Z) :
  py_repeat (PyInt 1) (py_len ([PyInt s] ++ (PyInt <$> l1) ++ [PyInt e]))
  ++ py_repeat (PyInt 2) (py_len ((PyInt <$> l2) ++ [PyInt e]))
  = PyInt <$> pair_tags (length l1) (length l2).
Proof.
  unfold pair_tags, py_repeat, py_len.
  rewrite !length_app, !length_fmap, fmap_app, !fmap_replicate. cbn [length].
  do 2 f_equal; f_equal; lia.
Qed.

Lemma py_len_pair_tags (n1 n2 : nat) :
  py_len (pair_tags n1 n2) = Z.of_nat n1 + Z.of_nat n2 + 3.
Proof. unfold pair_tags, py_len. rewrite length_app, !length_replicate. lia. Qed.

(** ** The builders in terms of the ids of their tokens *)

(** The three arrays of a pair of masked sequences. *)
Lemma pair_tensors (vocab : Vocab) (n : Z) (ps1 ps2 : list (Z * Z)) :
  let masked_ids1 :=
    [PyInt (sos_index vocab)] ++ (PyInt <$> ps1.*1) ++ [PyInt (eos_index vocab)] in
  let masked_ids2 := (PyInt <$> ps2.*1) ++ [PyInt (eos_index vocab)] in
  let ans_ids1 :=
    [PyInt (pad_index vocab)] ++ (PyInt <$> ps1.*2) ++ [PyInt (pad_index vocab)] in
  let ans_ids2 := (PyInt <$> ps2.*2) ++ [PyInt (pad_index vocab)] in
  let padding :=
    py_repeat (PyInt (pad_index vocab))
      (n - py_len (py_slice_to n (masked_ids1 ++ masked_ids2))) in
  torch_tensor (py_slice_to n (masked_ids1 ++ masked_ids2) ++ padding)
  = Ok (fit n (pad_index vocab)
          (pair_layout (sos_index vocab) (eos_index vocab) ps1.*1 ps2.*1))
  ∧ torch_tensor (py_slice_to n (ans_ids1 ++ ans_ids2) ++ padding)
    = Ok (fit n (pad_index vocab)
            (pair_layout (pad_index vocab) (pad_index vocab) ps1.*2 ps2.*2))
  ∧ torch_tensor
      (py_slice_to n (py_repeat (PyInt 1) (py_len masked_ids1)
                      ++ py_repeat (PyInt 2) (py_len masked_ids2)) ++ padding)
    = Ok (fit n (pad_index vocab) (pair_tags (length ps1) (length ps2))).
Proof.
  intros. subst masked_ids1 masked_ids2 ans_ids1 ans_ids2 padding.
  rewrite pair_tags_fmap, !length_fmap, !pair_layout_fmap.
  split_and!; apply tensor_of_ids; try done;
    rewrite py_len_fmap, ?py_len_pair_layout, ?py_len_pair_tags;
    unfold py_len; rewrite !length_fmap; lia.
Qed.

Lemma STDataset_build_run self sm1 sm2 is_same_label g :
  STDataset.build self sm1 sm2 is_same_label g =
  match mask_tokens (STDataset.vocab self) (STDataset.is_train self) 0.15 sm1 g with
  | Ok (ps1, g1) =>
      match mask_tokens (STDataset.vocab self) (STDataset.is_train self) 0.15 sm2 g1 with
      | Ok (ps2, g2) =>
          let vocab := STDataset.vocab self in
          let n := STDataset.seq_len self in
          Ok (<["bert_input" :=
                  TInts (fit n (pad_index vocab)
                           (pair_layout (sos_index vocab) (eos_index vocab) ps1.*1 ps2.*1))]>
              (<["bert_label" :=
                   TInts (fit n (pad_index vocab)
                            (pair_layout (pad_index vocab) (pad_index vocab) ps1.*2 ps2.*2))]>
               (<["segment_embd" :=
                    TInts (fit n (pad_index vocab) (pair_tags (length ps1) (length ps2)))]>
                (<["is_same" := TInt is_same_label]> ∅))), g2)
      | Raise e => Raise e
      end
  | Raise e => Raise e
  end.
Proof.
  unfold STDataset.build, STDataset.mask. rewrite bind_run, mask_run.
  destruct (mask_tokens _ _ _ sm1 g) as [[ps1 g1]|e]; [|done].
  rewrite bind_run, mask_run.
  destruct (mask_tokens _ _ _ sm2 g1) as [[ps2 g2]|e]; [|done].
  cbv zeta.
  destruct (pair_tensors (STDataset.vocab self) (STDataset.seq_len self) ps1 ps2)
    as (Hi & Hl & Hs). cbv zeta in Hi, Hl, Hs.
  rewrite bind_run, Hi, lift_ok_run, bind_run, Hl, lift_ok_run, bind_run, Hs, lift_ok_run.
  done.
Qed.

Lemma MSMDataset_build_run self sm1 sm2 g :
  MSMDataset.build self sm1 sm2 g =
  match mask_tokens (MSMDataset.vocab self) (MSMDataset.is_train self)
          (MSMDataset.rate self) sm1 g with
  | Ok (ps1, g1) =>
      match mask_tokens (MSMDataset.vocab self) (MSMDataset.is_train self)
              (MSMDataset.rate self) sm2 g1 with
      | Ok (ps2, g2) =>
          let vocab := MSMDataset.vocab self in
          let n := MSMDataset.seq_len self in
          Ok (<["bert_input" :=
                  TInts (fit n (pad_index vocab)
                           (pair_layout (sos_index vocab) (eos_index vocab) ps1.*1 ps2.*1))]>
              (<["bert_label" :=
                   TInts (fit n (pad_index vocab)
                            (pair_layout (pad_index vocab) (pad_index vocab) ps1.*2 ps2.*2))]>
               (<["segment_embd" :=
                    TInts (fit n (pad_index vocab) (pair_tags (length ps1) (length ps2)))]>
                ∅)), g2)
      | Raise e => Raise e
      end
  | Raise e => Raise e
  end.
Proof.
  unfold MSMDataset.build, MSMDataset.mask. rewrite bind_run, mask_run.
  destruct (mask_tokens _ _ _ sm1 g) as [[ps1 g1]|e]; [|done].
  rewrite bind_run, mask_run.
  destruct (mask_tokens _ _ _ sm2 g1) as [[ps2 g2]|e]; [|done].
  cbv zeta.
  destruct (pair_tensors (MSMDataset.vocab self) (MSMDataset.seq_len self) ps1 ps2)
    as (Hi & Hl & Hs). cbv zeta in Hi, Hl, Hs.
  rewrite bind_run, Hi, lift_ok_run, bind_run, Hl, lift_ok_run, bind_run, Hs, lift_ok_run.
  done.
Qed.

Lemma TSMDataset_build_run self sm1 sm2 is_same_label g :
  TSMDataset.build self sm1 sm2 is_same_label g =
  let vocab := TSMDataset.vocab self in
  let n := TSMDataset.seq_len self in
  let ids1 := stoi_get vocab <$> str_iter sm1 in
  let ids2 := stoi_get vocab <$> str_iter sm2 in
  Ok (<["bert_input" :=
          TInts (fit n (pad_index vocab)
                   (pair_layout (sos_index vocab) (eos_index vocab) ids1 ids2))]>
      (<["segment_embd" :=
           TInts (fit n (pad_index vocab) (pair_tags (length ids1) (length ids2)))]>
       (<["is_same" := TInt is_same_label]> ∅)), g).
Proof.
  unfold TSMDataset.build, TSMDataset.encode.
  rewrite bind_run, encode_run, lift_ok_run, bind_run, encode_run, lift_ok_run.
  cbv zeta. rewrite pair_tags_fmap, pair_layout_fmap.
  rewrite bind_run, (tensor_of_ids _ _ _ _ _ eq_refl), lift_ok_run
    by apply py_len_fmap.
  rewrite bind_run, (tensor_of_ids _ _ _ _ _ eq_refl), lift_ok_run.
  - done.
  - rewrite py_len_fmap, py_len_pair_layout, py_len_pair_tags. unfold py_len. lia.
Qed.

Lemma ESOLDataset_build_run self sm y g :
  ESOLDataset.build self sm y g =
  let vocab := ESOLDataset.vocab self in
  let n := ESOLDataset.seq_len self in
  let ids := [sos_index vocab] ++ (stoi_get vocab <$> sm) ++ [eos_index vocab] in
  Ok (<["bert_input" := TInts (fit n (pad_index vocab) ids)]>
      (<["segment_embd" :=
           TInts (py_repeat 1 (py_len ids)
                  ++ py_repeat (pad_index vocab) (n - py_len (py_slice_to n ids)))]>
       (<["target" := TFloat y]> ∅)), g).
Proof.
  unfold ESOLDataset.build, ESOLDataset.encode.
  rewrite bind_run, encode_run, lift_ok_run. cbv zeta.
  set (vocab := ESOLDataset.vocab self). set (n := ESOLDataset.seq_len self).
  assert (E : [PyInt (sos_index vocab)] ++ (PyInt <$> (stoi_get vocab <$> sm))
                ++ [PyInt (eos_index vocab)]
              = PyInt <$> ([sos_index vocab] ++ (stoi_get vocab <$> sm) ++ [eos_index vocab])).
  { by rewrite !fmap_app. }
  rewrite E, bind_run, (tensor_of_ids _ _ _ _ _ eq_refl), lift_ok_run
    by apply py_len_fmap.
  rewrite py_slice_to_fmap, !py_len_fmap, !py_repeat_fmap, <- fmap_app.
  rewrite bind_run, torch_tensor_ints, lift_ok_run. done.
Qed.

Lemma Seq2seqDataset_view_ids self sm :
  Seq2seqDataset.view self sm =
  let vocab := Seq2seqDataset.vocab self in
  let ids := [sos_index vocab] ++ (stoi_get vocab <$> sm) ++ [eos_index vocab] in
  PyInt <$> (ids ++ py_repeat (pad_index vocab) (Seq2seqDataset.seq_len self - py_len ids)).
Proof.
  unfold Seq2seqDataset.view. cbv zeta.
  rewrite !fmap_app, <- py_repeat_fmap, <- list_fmap_compose.
  do 3 f_equal. f_equal. unfold py_len. cbn. rewrite !length_app, !length_fmap. done.
Qed.

(** ** Constructed instances *)

Lemma STDataset_fields_init df vocab seq_len transform is_train :
  STDataset.fields (STDataset.__init__ df vocab seq_len transform is_train)
  = Ok {| STDataset.vocab := vocab; STDataset.seq_len := seq_len;
          STDataset.is_train := is_train; STDataset.transform := transform;
          STDataset.firsts := eval_cap is_train (py_len df) (df.*1);
          STDataset.seconds := eval_cap is_train (py_len df) (df.*2) |}.
Proof.
  unfold STDataset.__init__, eval_cap.
  destruct (negb is_train && (10000 <? py_len df)); reflexivity.
Qed.

Lemma Seq2seqDataset_fields_init df vocab seq_len transform is_train :
  Seq2seqDataset.fields (Seq2seqDataset.__init__ df vocab seq_len transform is_train)
  = Ok {| Seq2seqDataset.vocab := vocab; Seq2seqDataset.seq_len := seq_len;
          Seq2seqDataset.transform := transform;
          Seq2seqDataset.smiles := eval_cap is_train (py_len df) df |}.
Proof.
  unfold Seq2seqDataset.__init__, eval_cap.
  destruct (negb is_train && (10000 <? py_len df)); reflexivity.
Qed.

Lemma ESOLDataset_fields_init df vocab seq_len transform :
  ESOLDataset.fields (ESOLDataset.__init__ df vocab seq_len transform)
  = Ok {| ESOLDataset.vocab := vocab; ESOLDataset.seq_len := seq_len;
          ESOLDataset.transform := transform;
          ESOLDataset.smiles := df.*1; ESOLDataset.Y := df.*2 |}.
Proof. reflexivity. Qed.

Lemma TSMDataset_fields_init df vocab seq_len transform is_train :
  TSMDataset.fields (TSMDataset.__init__ df vocab seq_len transform is_train)
  = Ok {| TSMDataset.vocab := vocab; TSMDataset.seq_len := seq_len;
          TSMDataset.firsts := df.*1; TSMDataset.seconds := df.*2 |}.
Proof. reflexivity. Qed.

Lemma MSMDataset_fields_init df vocab seq_len transform is_train rate :
  MSMDataset.fields (MSMDataset.__init__ df vocab seq_len transform is_train rate)
  = Ok {| MSMDataset.vocab := vocab; MSMDataset.seq_len := seq_len;
          MSMDataset.is_train := is_train; MSMDataset.transform := transform;
          MSMDataset.firsts := df; MSMDataset.rate := rate |}.
Proof. reflexivity. Qed.

Lemma STDataset_smiles_unset df vocab seq_len transform is_train :
  STDataset.__init__ df vocab seq_len transform is_train !! "smiles" = None.
Proof.
  unfold STDataset.__init__.
  destruct (negb is_train && (10000 <? py_len df)); reflexivity.
Qed.

(** * The claims *)

(** ** Masking ([STDataset.mask] with rate 0.15, [MSMDataset.mask] with
    [self.rate]) *)

(** C2.  Take a token of a sequence whose draw [p] triggers masking ([p]
    is not greater than the rate: the test [prob > rate] fails) and let [p']
    be the rescaled draw, the binary64 quotient that [prob /= rate]
    computes.  In the arrays that [mask] returns, the input slot of the
    token is the mask id when [p' < 0.8]; it is the outcome of
    [random.randrange(len(vocab))], an id of [0, len(vocab)), when
    [0.8 <= p' < 0.9]; and it is the id of the token itself ([unk] on a
    vocabulary miss) when [0.9 <= p'].  The draw is the one made in the
    random state [g1] that the tokens before it leave behind. *)
Theorem mask_corruption_modes
    (vocab : Vocab) (is_train : bool) (rate : float)
    (pre : list string) (token : string) (post : list string)
    (g g1 g2 g' : RandomState) (r1 : list pyval * list pyval) (p : float)
    (masked_ids ans_ids : list pyval) :
  mask vocab is_train rate pre g = Ok (r1, g1) →
  draw_prob is_train g1 = Ok (p, g2) →
  (rate <? p)%float = false →
  mask vocab is_train rate (pre ++ token :: post) g = Ok ((masked_ids, ans_ids), g') →
  let p' := (p / rate)%float in
  ((p' <? 0.8)%float = true →
     masked_ids !! length pre = Some (PyInt (mask_index vocab)))
  ∧ ((0.8 <=? p')%float = true → (p' <? 0.9)%float = true →
       ∃ k g3, random_randrange (vocab_len vocab) g2 = Ok (k, g3)
               ∧ 0 ≤ k < vocab_len vocab
               ∧ masked_ids !! length pre = Some (PyInt k))
  ∧ ((0.9 <=? p')%float = true →
       masked_ids !! length pre = Some (PyInt (stoi_get vocab token))).
Proof.
  intros Hpre Hp Hle Hall p'.
  destruct (mask_middle _ _ _ _ _ _ _ _ _ _ _ _ Hpre Hall) as (m & a & g3 & Htok & Hm & _).
  pose proof (mask_token_corrupt_inv _ _ _ _ _ _ _ _ _ Hp Hle Htok) as Hdiv.
  rewrite (mask_token_corrupt _ _ _ _ _ _ _ _ Hp Hle Hdiv) in Htok. fold p' in Htok.
  split_and!.
  - intros Hlt. rewrite Hlt in Htok. by inversion Htok; subst.
  - intros Hge Hlt. rewrite (float_leb_not_ltb _ _ Hge), Hlt in Htok.
    destruct (random_randrange (vocab_len vocab) g2) as [[k g4]|e] eqn:Hk; [|done].
    inversion Htok; subst. exists m, g3. eauto using random_randrange_ok.
  - intros Hge.
    rewrite (float_ge_09_not_lt_08 _ Hge), (float_leb_not_ltb _ _ Hge) in Htok.
    by inversion Htok; subst.
Qed.

(** C3, as amended.  Take a token of a sequence whose draw [p] exceeds
    the rate (the test [prob > rate] succeeds).  In the arrays that [mask]
    returns, the input slot of the token is its id ([unk] on a vocabulary
    miss) and its answer slot is the module constant [PAD = 0], whatever the
    pad id of the vocabulary; it is the pad id of the vocabulary when that
    id is 0. *)
Theorem mask_untouched_token
    (vocab : Vocab) (is_train : bool) (rate : float)
    (pre : list string) (token : string) (post : list string)
    (g g1 g2 g' : RandomState) (r1 : list pyval * list pyval) (p : float)
    (masked_ids ans_ids : list pyval) :
  mask vocab is_train rate pre g = Ok (r1, g1) →
  draw_prob is_train g1 = Ok (p, g2) →
  (rate <? p)%float = true →
  mask vocab is_train rate (pre ++ token :: post) g = Ok ((masked_ids, ans_ids), g') →
  masked_ids !! length pre = Some (PyInt (stoi_get vocab token))
  ∧ ans_ids !! length pre = Some (PyInt PAD)
  ∧ (pad_index vocab = PAD → ans_ids !! length pre = Some (PyInt (pad_index vocab))).
Proof.
  intros Hpre Hp Hlt Hall.
  destruct (mask_middle _ _ _ _ _ _ _ _ _ _ _ _ Hpre Hall) as (m & a & g3 & Htok & Hm & Ha).
  rewrite (mask_token_keep _ _ _ _ _ _ _ Hp Hlt) in Htok.
  inversion Htok; subst. split_and!; [done..|]. by intros ->.
Qed.

(** C3 fails as stated: with the vocabulary [pad7_vocab], whose pad id is
    7, and a draw above the rate 0.15, the token is left alone and its answer
    slot holds 0, which is not the pad id of the vocabulary. *)
Lemma mask_untouched_token_counterexample :
  random_random (replay [2 ^ 53 - 1])
  = Ok (draw_value (2 ^ 53 - 1), {| tape := tape (replay [2 ^ 53 - 1]); cursor := 1 |})
  ∧ (0.15 <? draw_value (2 ^ 53 - 1))%float = true
  ∧ outcome (mask pad7_vocab true 0.15 ["C"] (replay [2 ^ 53 - 1]))
    = Ok ([PyInt 5], [PyInt 0])
  ∧ [PyInt 0] !! 0%nat ≠ Some (PyInt (pad_index pad7_vocab)).
Proof.
  split; [reflexivity|].
  split; [vm_compute; reflexivity|].
  split; [vm_compute; reflexivity|].
  vm_compute. discriminate.
Qed.


(** The binary64 quotient of the draw [0.12] by the rate [0.15] is the
    binary64 value of [0.8], which is not below [0.8]. *)
Lemma draw_012_rescaled :
  draw_value draw_012 = 0.12%float
  ∧ (draw_value draw_012 / 0.15)%float = 0.8%float
  ∧ (draw_value draw_012 / 0.15 <? 0.8)%float = false.
Proof. split_and!; vm_compute; reflexivity. Qed.

(** Training on ["C"; "O"] with the draws [0.12], then 3 for
    [random.randrange], then [1 - 2^-53]: the rescaled draw of the first
    token is the binary64 value of [0.8], so the token receives a random id,
    3; the second token is left alone. *)
Lemma mask_corruption_modes_witness :
  let g := replay [draw_012; 3; 2 ^ 53 - 1] in
  mask example_vocab true 0.15 ["C"; "O"] g
  = Ok (([PyInt 3; PyInt 6], [PyInt 5; PyInt 0]), {| tape := tape g; cursor := 3 |})
  ∧ ∃ k g3,
      random_randrange (vocab_len example_vocab) {| tape := tape g; cursor := 1 |}
      = Ok (k, g3)
      ∧ 0 ≤ k < vocab_len example_vocab
      ∧ [PyInt 3; PyInt 6] !! 0%nat = Some (PyInt k).
Proof.
  intros g.
  assert (H : mask example_vocab true 0.15 ["C"; "O"] g
              = Ok (([PyInt 3; PyInt 6], [PyInt 5; PyInt 0]),
                    {| tape := tape g; cursor := 3 |})).
  { vm_compute. reflexivity. }
  split; [exact H|].
  apply (proj1 (proj2 (mask_corruption_modes example_vocab true 0.15 [] "C" ["O"]
                         g g {| tape := tape g; cursor := 1 |}
                         {| tape := tape g; cursor := 3 |} ([], [])
                         (draw_value draw_012) [PyInt 3; PyInt 6] [PyInt 5; PyInt 0]
                         ltac:(reflexivity) ltac:(reflexivity)
                         ltac:(vm_compute; reflexivity) H))).
  - vm_compute. reflexivity.
  - vm_compute. reflexivity.
Defined.

(** With the pad id 7 of [pad7_vocab]: the second token, whose draw
    [1 - 2^-53] exceeds the rate, keeps its id 6 and has the answer 0. *)
Lemma mask_untouched_token_witness :
  let g := replay [0; 2 ^ 53 - 1] in
  mask pad7_vocab true 0.15 ["C"; "O"] g
  = Ok (([PyInt 4; PyInt 6], [PyInt 5; PyInt 0]), {| tape := tape g; cursor := 2 |})
  ∧ [PyInt 4; PyInt 6] !! 1%nat = Some (PyInt 6)
  ∧ [PyInt 5; PyInt 0] !! 1%nat = Some (PyInt PAD).
Proof.
  intros g.
  assert (H : mask pad7_vocab true 0.15 ["C"; "O"] g
              = Ok (([PyInt 4; PyInt 6], [PyInt 5; PyInt 0]),
                    {| tape := tape g; cursor := 2 |})).
  { vm_compute. reflexivity. }
  split; [exact H|].
  destruct (mask_untouched_token pad7_vocab true 0.15 ["C"] "O" []
              g {| tape := tape g; cursor := 1 |} {| tape := tape g; cursor := 2 |}
              {| tape := tape g; cursor := 2 |} ([PyInt 4], [PyInt 5])
              (draw_value (2 ^ 53 - 1)) [PyInt 4; PyInt 6] [PyInt 5; PyInt 0]
              ltac:(vm_compute; reflexivity) ltac:(reflexivity)
              ltac:(vm_compute; reflexivity) H) as (Hm & Ha & _).
  split; assumption.
Defined.


(** ** Lengths of the arrays of a sample *)

(** Case analysis on the key of a sample built by successive inserts. *)
Ltac sample_key H :=
  repeat (apply lookup_insert_Some in H as [[_ H]|[_ H]];
          [try (inversion H; subst; clear H)|]);
  try (by rewrite lookup_empty in H).

Lemma STDataset_getitem_inv self item g s g' :
  STDataset.__getitem__ self item g = Ok (s, g') →
  ∃ st sm1 sm2 is_same_label g1,
    STDataset.fields self = Ok st
    ∧ STDataset.resolve st item g = Ok ((sm1, sm2, is_same_label), g1)
    ∧ STDataset.build st sm1 sm2 is_same_label g1 = Ok (s, g').
Proof.
  unfold STDataset.__getitem__. intros H.
  apply bind_ok_inv in H as (st & g0 & Hst & H).
  apply lift_ok_inv in Hst as [Hst ->]. unfold STDataset.getitem in H.
  apply bind_ok_inv in H as ([[sm1 sm2] lab] & g1 & Hres & H). eauto 10.
Qed.

Lemma MSMDataset_getitem_inv self item g s g' :
  MSMDataset.__getitem__ self item g = Ok (s, g') →
  ∃ st sm1 sm2 g1,
    MSMDataset.fields self = Ok st
    ∧ MSMDataset.resolve st item g = Ok ((sm1, sm2), g1)
    ∧ MSMDataset.build st sm1 sm2 g1 = Ok (s, g').
Proof.
  unfold MSMDataset.__getitem__. intros H.
  apply bind_ok_inv in H as (st & g0 & Hst & H).
  apply lift_ok_inv in Hst as [Hst ->]. unfold MSMDataset.getitem in H.
  apply bind_ok_inv in H as ([sm1 sm2] & g1 & Hres & H). eauto 10.
Qed.

Lemma TSMDataset_getitem_inv self item g s g' :
  TSMDataset.__getitem__ self item g = Ok (s, g') →
  ∃ st sm1 sm2 is_same_label g1,
    TSMDataset.fields self = Ok st
    ∧ TSMDataset.resolve st item g = Ok ((sm1, sm2, is_same_label), g1)
    ∧ TSMDataset.build st sm1 sm2 is_same_label g1 = Ok (s, g').
Proof.
  unfold TSMDataset.__getitem__. intros H.
  apply bind_ok_inv in H as (st & g0 & Hst & H).
  apply lift_ok_inv in Hst as [Hst ->]. unfold TSMDataset.getitem in H.
  apply bind_ok_inv in H as ([[sm1 sm2] lab] & g1 & Hres & H). eauto 10.
Qed.

Lemma ESOLDataset_getitem_inv self item g s g' :
  ESOLDataset.__getitem__ self item g = Ok (s, g') →
  ∃ st sm y g1,
    ESOLDataset.fields self = Ok st
    ∧ ESOLDataset.resolve st item g = Ok ((sm, y), g1)
    ∧ ESOLDataset.build st sm y g1 = Ok (s, g').
Proof.
  unfold ESOLDataset.__getitem__. intros H.
  apply bind_ok_inv in H as (st & g0 & Hst & H).
  apply lift_ok_inv in Hst as [Hst ->]. unfold ESOLDataset.getitem in H.
  apply bind_ok_inv in H as ([sm y] & g1 & Hres & H). eauto 10.
Qed.

(** The two arrays of a [Seq2seqDataset] sample are the padded ids of the
    two token sequences that the transform returned for the row. *)
Lemma Seq2seqDataset_getitem_inv self item g input1 input2 g' :
  Seq2seqDataset.__getitem__ self item g = Ok ((input1, input2), g') →
  ∃ st sm sm1 sm2 g1,
    Seq2seqDataset.fields self = Ok st
    ∧ np_getitem (Seq2seqDataset.smiles st) item = Ok sm
    ∧ Seq2seqDataset.transform st sm g = Ok (sm1, g1)
    ∧ Seq2seqDataset.transform st sm g1 = Ok (sm2, g')
    ∧ Seq2seqDataset.view st sm1 = PyInt <$> input1
    ∧ Seq2seqDataset.view st sm2 = PyInt <$> input2.
Proof.
  unfold Seq2seqDataset.__getitem__. intros H.
  apply bind_ok_inv in H as (st & g0 & Hst & H).
  apply lift_ok_inv in Hst as [Hst ->]. unfold Seq2seqDataset.getitem in H.
  apply bind_ok_inv in H as (sm & g0 & Hsm & H).
  apply lift_ok_inv in Hsm as [Hsm ->].
  apply bind_ok_inv in H as (sm1 & g1 & Hsm1 & H).
  apply bind_ok_inv in H as (sm2 & g2 & Hsm2 & H).
  rewrite !Seq2seqDataset_view_ids in *. cbv zeta in *.
  rewrite bind_run, torch_tensor_ints, lift_ok_run in H.
  rewrite bind_run, torch_tensor_ints, lift_ok_run in H.
  apply ret_ok_inv in H as [H ->]. injection H as -> ->.
  exists st, sm, sm1, sm2, g1. split_and!; try done; apply Seq2seqDataset_view_ids.
Qed.

Lemma STDataset_arrays_length self st item g s g' key ids :
  STDataset.fields self = Ok st → 0 ≤ STDataset.seq_len st →
  STDataset.__getitem__ self item g = Ok (s, g') →
  s !! key = Some (TInts ids) → py_len ids = STDataset.seq_len st.
Proof.
  intros Hst Hn H Hk.
  apply STDataset_getitem_inv in H as (st' & sm1 & sm2 & lab & g1 & Hst' & _ & H).
  rewrite Hst in Hst'. injection Hst' as <-.
  rewrite STDataset_build_run in H.
  destruct (mask_tokens _ _ _ sm1 g1) as [[ps1 g2]|e]; [|done].
  destruct (mask_tokens _ _ _ sm2 g2) as [[ps2 g3]|e]; [|done].
  cbv zeta in H. injection H as <- <-.
  sample_key Hk; by apply py_len_fit.
Qed.

Lemma MSMDataset_arrays_length self st item g s g' key ids :
  MSMDataset.fields self = Ok st → 0 ≤ MSMDataset.seq_len st →
  MSMDataset.__getitem__ self item g = Ok (s, g') →
  s !! key = Some (TInts ids) → py_len ids = MSMDataset.seq_len st.
Proof.
  intros Hst Hn H Hk.
  apply MSMDataset_getitem_inv in H as (st' & sm1 & sm2 & g1 & Hst' & _ & H).
  rewrite Hst in Hst'. injection Hst' as <-.
  rewrite MSMDataset_build_run in H.
  destruct (mask_tokens _ _ _ sm1 g1) as [[ps1 g2]|e]; [|done].
  destruct (mask_tokens _ _ _ sm2 g2) as [[ps2 g3]|e]; [|done].
  cbv zeta in H. injection H as <- <-.
  sample_key Hk; by apply py_len_fit.
Qed.

Lemma TSMDataset_arrays_length self st item g s g' key ids :
  TSMDataset.fields self = Ok st → 0 ≤ TSMDataset.seq_len st →
  TSMDataset.__getitem__ self item g = Ok (s, g') →
  s !! key = Some (TInts ids) → py_len ids = TSMDataset.seq_len st.
Proof.
  intros Hst Hn H Hk.
  apply TSMDataset_getitem_inv in H as (st' & sm1 & sm2 & lab & g1 & Hst' & _ & H).
  rewrite Hst in Hst'. injection Hst' as <-.
  rewrite TSMDataset_build_run in H. cbv zeta in H. injection H as <- <-.
  sample_key Hk; by apply py_len_fit.
Qed.

Lemma ESOLDataset_input_length self st item g s g' ids :
  ESOLDataset.fields self = Ok st → 0 ≤ ESOLDataset.seq_len st →
  ESOLDataset.__getitem__ self item g = Ok (s, g') →
  s !! "bert_input" = Some (TInts ids) → py_len ids = ESOLDataset.seq_len st.
Proof.
  intros Hst Hn H Hk.
  apply ESOLDataset_getitem_inv in H as (st' & sm & y & g1 & Hst' & _ & H).
  rewrite Hst in Hst'. injection Hst' as <-.
  rewrite ESOLDataset_build_run in H. cbv zeta in H. injection H as <- <-.
  rewrite lookup_insert_eq in Hk. injection Hk as <-. by apply py_len_fit.
Qed.

Lemma Seq2seqDataset_view_length st sm ids :
  Seq2seqDataset.view st sm = PyInt <$> ids →
  py_len ids = Z.max (Seq2seqDataset.seq_len st) (py_len sm + 2).
Proof.
  rewrite Seq2seqDataset_view_ids. cbv zeta. intros H.
  apply (f_equal py_len) in H. rewrite !py_len_fmap in H. rewrite <- H.
  rewrite !py_len_app, py_len_repeat, !py_len_fmap.
  unfold py_len. cbn [length]. lia.
Qed.

(** C1, as amended.  For a non-negative [seq_len]: every integer array of
    a sample of [STDataset], [TSMDataset] or [MSMDataset] has exactly
    [seq_len] elements, whatever the index and the draws; so has
    [bert_input] in a sample of [ESOLDataset]; and each of the two arrays
    of a [Seq2seqDataset] sample, which is never sliced, has
    [max(seq_len, n + 2)] elements, [n] being the number of tokens that the
    transform returned for it. *)
Theorem sample_array_lengths (seq_len : Z) :
  0 ≤ seq_len →
  (∀ df vocab transform is_train item g s g' key ids,
     STDataset.__getitem__ (STDataset.__init__ df vocab seq_len transform is_train) item g
     = Ok (s, g') →
     s !! key = Some (TInts ids) → py_len ids = seq_len)
  ∧ (∀ df vocab transform is_train item g s g' key ids,
       TSMDataset.__getitem__ (TSMDataset.__init__ df vocab seq_len transform is_train) item g
       = Ok (s, g') →
       s !! key = Some (TInts ids) → py_len ids = seq_len)
  ∧ (∀ df vocab transform is_train rate item g s g' key ids,
       MSMDataset.__getitem__
         (MSMDataset.__init__ df vocab seq_len transform is_train rate) item g
       = Ok (s, g') →
       s !! key = Some (TInts ids) → py_len ids = seq_len)
  ∧ (∀ df vocab transform item g s g' ids,
       ESOLDataset.__getitem__ (ESOLDataset.__init__ df vocab seq_len transform) item g
       = Ok (s, g') →
       s !! "bert_input" = Some (TInts ids) → py_len ids = seq_len)
  ∧ (∀ df vocab transform is_train item g input1 input2 g',
       Seq2seqDataset.__getitem__
         (Seq2seqDataset.__init__ df vocab seq_len transform is_train) item g
       = Ok ((input1, input2), g') →
       ∃ sm sm1 sm2 g1,
         transform sm g = Ok (sm1, g1) ∧ transform sm g1 = Ok (sm2, g')
         ∧ py_len input1 = Z.max seq_len (py_len sm1 + 2)
         ∧ py_len input2 = Z.max seq_len (py_len sm2 + 2)).
Proof.
  intros Hn. split_and!.
  - intros * H Hk.
    by apply (STDataset_arrays_length _ _ _ _ _ _ _ _
                (STDataset_fields_init df vocab seq_len transform is_train) Hn H Hk).
  - intros * H Hk.
    by apply (TSMDataset_arrays_length _ _ _ _ _ _ _ _
                (TSMDataset_fields_init df vocab seq_len transform is_train) Hn H Hk).
  - intros * H Hk.
    by apply (MSMDataset_arrays_length _ _ _ _ _ _ _ _
                (MSMDataset_fields_init df vocab seq_len transform is_train rate) Hn H Hk).
  - intros * H Hk.
    by apply (ESOLDataset_input_length _ _ _ _ _ _ _
                (ESOLDataset_fields_init df vocab seq_len transform) Hn H Hk).
  - intros * H.
    apply Seq2seqDataset_getitem_inv in H
      as (st & sm & sm1 & sm2 & g1 & Hst & _ & H1 & H2 & Hv1 & Hv2).
    rewrite Seq2seqDataset_fields_init in Hst. injection Hst as <-.
    apply Seq2seqDataset_view_length in Hv1, Hv2. cbn in *.
    exists sm, sm1, sm2, g1. done.
Qed.

(** C1 fails as stated: with [seq_len = 3] and the three tokens of "COC",
    the two arrays of the [Seq2seqDataset] sample have five elements, and
    in the [ESOLDataset] sample [segment_embd] has five elements next to a
    [bert_input] of three. *)
Lemma sample_array_lengths_counterexample :
  outcome (Seq2seqDataset.__getitem__
             (Seq2seqDataset.__init__ ["COC"] example_vocab 3 char_tokens true) 0 (replay []))
  = Ok ([2; 5; 6; 5; 3], [2; 5; 6; 5; 3])
  ∧ field "bert_input"
      (ESOLDataset.__getitem__
         (ESOLDataset.__init__ [("COC", 1%float)] example_vocab 3 char_tokens) 0 (replay []))
    = Some (TInts [2; 5; 6])
  ∧ field "segment_embd"
      (ESOLDataset.__getitem__
         (ESOLDataset.__init__ [("COC", 1%float)] example_vocab 3 char_tokens) 0 (replay []))
    = Some (TInts [1; 1; 1; 1; 1])
  ∧ py_len [2; 5; 6; 5; 3] ≠ 3
  ∧ py_len [1; 1; 1; 1; 1] ≠ 3.
Proof.
  split; [vm_compute; reflexivity|].
  split; [vm_compute; reflexivity|].
  split; [vm_compute; reflexivity|].
  split; vm_compute; discriminate.
Qed.

Lemma sample_array_lengths_witness :
  field "bert_label"
    (STDataset.__getitem__
       (STDataset.__init__ [("C", "O")] example_vocab 8 char_tokens true) 0
       (replay [half; 0; 2 ^ 53 - 1]))
  = Some (TInts [0; 5; 0; 0; 0; 0; 0; 0])
  ∧ py_len [0; 5; 0; 0; 0; 0; 0; 0] = 8.
Proof.
  assert (F : field "bert_label"
                (STDataset.__getitem__
                   (STDataset.__init__ [("C", "O")] example_vocab 8 char_tokens true) 0
                   (replay [half; 0; 2 ^ 53 - 1]))
              = Some (TInts [0; 5; 0; 0; 0; 0; 0; 0])).
  { vm_compute. reflexivity. }
  split; [exact F|].
  destruct (STDataset.__getitem__
              (STDataset.__init__ [("C", "O")] example_vocab 8 char_tokens true) 0
              (replay [half; 0; 2 ^ 53 - 1])) as [[s g']|e] eqn:E; [|discriminate F].
  exact (proj1 (sample_array_lengths 8 ltac:(lia)) _ _ _ _ _ _ s g' "bert_label" _ E F).
Defined.

(** ** Segment tags *)

Lemma pair_tags_lookup (x : Z) (n1 n2 i : nat) :
  (i < n1 + n2 + 3)%nat → pair_tags n1 n2 !! i = Some (segment_tag x n1 n2 i).
Proof.
  intros Hi. unfold pair_tags, segment_tag.
  destruct (decide (i < n1 + 2)%nat).
  - rewrite lookup_app_l by (rewrite length_replicate; lia).
    by apply lookup_replicate_2.
  - rewrite decide_True by lia.
    rewrite lookup_app_r by (rewrite length_replicate; lia).
    rewrite length_replicate. apply lookup_replicate_2. lia.
Qed.

(** Every position of the cut and padded tags of a pair carries the tag
    of the position; a negative [n] only cuts. *)
Lemma fit_pair_tags_lookup (n x : Z) (n1 n2 i : nat) :
  (i < length (fit n x (pair_tags n1 n2)))%nat →
  fit n x (pair_tags n1 n2) !! i = Some (segment_tag x n1 n2 i).
Proof.
  assert (Hlen : length (pair_tags n1 n2) = (n1 + n2 + 3)%nat).
  { unfold pair_tags. rewrite length_app, !length_replicate. lia. }
  unfold fit, py_slice_to, py_repeat, py_len.
  destruct (Z.leb_spec 0 n) as [Hn|Hn];
    rewrite length_app, length_replicate, !length_take, !Hlen; intros Hi.
  - destruct (decide (i < n1 + n2 + 3)%nat) as [Hin|Hout].
    + rewrite lookup_app_l by (rewrite length_take, Hlen; lia).
      rewrite lookup_take_lt by lia. by apply pair_tags_lookup.
    + rewrite lookup_app_r by (rewrite length_take, Hlen; lia).
      rewrite length_take, Hlen. unfold segment_tag.
      rewrite !decide_False by lia. apply lookup_replicate_2. lia.
  - rewrite lookup_app_l by (rewrite length_take, Hlen; lia).
    rewrite lookup_take_lt by lia. apply pair_tags_lookup. lia.
Qed.

(** C6, as amended.  In a sample of a pair variant ([STDataset],
    [TSMDataset], [MSMDataset]) built from a first sequence of [n1] tokens
    and a second of [n2] tokens, position [i] of [segment_embd] carries
    [segment_tag pad n1 n2 i]: 1 on the start marker, the first sequence and
    its end marker, 2 on the second sequence and its end marker, and on the
    padding the pad id [pad] of the vocabulary, which is the tag 0 when that
    id is 0.  With a [seq_len] that is not negative [segment_embd] has
    [seq_len] positions. *)
Theorem pair_segment_tags :
  (∀ self st item g sm1 sm2 is_same_label g1 s g',
     STDataset.fields self = Ok st →
     STDataset.resolve st item g = Ok ((sm1, sm2, is_same_label), g1) →
     STDataset.__getitem__ self item g = Ok (s, g') →
     ∃ segment_embd,
       s !! "segment_embd" = Some (TInts segment_embd)
       ∧ (0 ≤ STDataset.seq_len st → py_len segment_embd = STDataset.seq_len st)
       ∧ ∀ i : nat, (i < length segment_embd)%nat →
           segment_embd !! i
           = Some (segment_tag (pad_index (STDataset.vocab st))
                     (length sm1) (length sm2) i))
  ∧ (∀ self st item g sm1 sm2 is_same_label g1 s g',
       TSMDataset.fields self = Ok st →
       TSMDataset.resolve st item g = Ok ((sm1, sm2, is_same_label), g1) →
       TSMDataset.__getitem__ self item g = Ok (s, g') →
       ∃ segment_embd,
         s !! "segment_embd" = Some (TInts segment_embd)
         ∧ (0 ≤ TSMDataset.seq_len st → py_len segment_embd = TSMDataset.seq_len st)
         ∧ ∀ i : nat, (i < length segment_embd)%nat →
             segment_embd !! i
             = Some (segment_tag (pad_index (TSMDataset.vocab st))
                       (length (str_iter sm1)) (length (str_iter sm2)) i))
  ∧ (∀ self st item g sm1 sm2 g1 s g',
       MSMDataset.fields self = Ok st →
       MSMDataset.resolve st item g = Ok ((sm1, sm2), g1) →
       MSMDataset.__getitem__ self item g = Ok (s, g') →
       ∃ segment_embd,
         s !! "segment_embd" = Some (TInts segment_embd)
         ∧ (0 ≤ MSMDataset.seq_len st → py_len segment_embd = MSMDataset.seq_len st)
         ∧ ∀ i : nat, (i < length segment_embd)%nat →
             segment_embd !! i
             = Some (segment_tag (pad_index (MSMDataset.vocab st))
                       (length sm1) (length sm2) i)).
Proof.
  split_and!.
  - intros * Hst Hres H.
    apply STDataset_getitem_inv in H as (st' & t1 & t2 & lab & g2 & Hst' & Hres' & H).
    rewrite Hst in Hst'. injection Hst' as <-.
    rewrite Hres in Hres'. injection Hres' as <- <- <- <-.
    rewrite STDataset_build_run in H.
    destruct (mask_tokens _ _ _ sm1 g1) as [[ps1 g3]|e] eqn:H1; [|done].
    destruct (mask_tokens _ _ _ sm2 g3) as [[ps2 g4]|e] eqn:H2; [|done].
    cbv zeta in H. injection H as <- <-.
    apply mask_tokens_length in H1, H2. rewrite H1, H2.
    eexists. split; [reflexivity|]. split; [apply py_len_fit|].
    intros i Hi. by apply fit_pair_tags_lookup.
  - intros * Hst Hres H.
    apply TSMDataset_getitem_inv in H as (st' & t1 & t2 & lab & g2 & Hst' & Hres' & H).
    rewrite Hst in Hst'. injection Hst' as <-.
    rewrite Hres in Hres'. injection Hres' as <- <- <- <-.
    rewrite TSMDataset_build_run in H. cbv zeta in H. injection H as <- <-.
    rewrite !length_fmap.
    eexists. split; [reflexivity|]. split; [apply py_len_fit|].
    intros i Hi. by apply fit_pair_tags_lookup.
  - intros * Hst Hres H.
    apply MSMDataset_getitem_inv in H as (st' & t1 & t2 & g2 & Hst' & Hres' & H).
    rewrite Hst in Hst'. injection Hst' as <-.
    rewrite Hres in Hres'. injection Hres' as <- <- <-.
    rewrite MSMDataset_build_run in H.
    destruct (mask_tokens _ _ _ sm1 g1) as [[ps1 g3]|e] eqn:H1; [|done].
    destruct (mask_tokens _ _ _ sm2 g3) as [[ps2 g4]|e] eqn:H2; [|done].
    cbv zeta in H. injection H as <- <-.
    apply mask_tokens_length in H1, H2. rewrite H1, H2.
    eexists. split; [reflexivity|]. split; [apply py_len_fit|].
    intros i Hi. by apply fit_pair_tags_lookup.
Qed.

(** C6 fails as stated: with the vocabulary [pad7_vocab], whose pad id is
    7, the three padding positions of the sample of the row [("C", "O")]
    carry the segment tag 7, not 0 ([bert_input] shows that they are the
    padding). *)
Lemma pair_segment_tags_counterexample :
  field "segment_embd"
    (TSMDataset.__getitem__
       (TSMDataset.__init__ [("C", "O")] pad7_vocab 8 char_tokens false) 0 (replay [half]))
  = Some (TInts [1; 1; 1; 2; 2; 7; 7; 7])
  ∧ field "bert_input"
      (TSMDataset.__getitem__
         (TSMDataset.__init__ [("C", "O")] pad7_vocab 8 char_tokens false) 0 (replay [half]))
    = Some (TInts [2; 5; 3; 6; 3; 7; 7; 7])
  ∧ field "segment_embd"
      (STDataset.__getitem__
         (STDataset.__init__ [("C", "O")] pad7_vocab 8 char_tokens false) 0 (replay [half]))
    = Some (TInts [1; 1; 1; 2; 2; 7; 7; 7])
  ∧ [1; 1; 1; 2; 2; 7; 7; 7] !! 5%nat ≠ Some 0.
Proof.
  split; [vm_compute; reflexivity|].
  split; [vm_compute; reflexivity|].
  split; [vm_compute; reflexivity|].
  vm_compute. discriminate.
Qed.

Lemma pair_segment_tags_witness :
  ∃ segment_embd,
    field "segment_embd"
      (TSMDataset.__getitem__
         (TSMDataset.__init__ [("C", "O")] pad7_vocab 8 char_tokens false) 0
         (replay [half]))
    = Some (TInts segment_embd)
    ∧ (0 ≤ 8 → py_len segment_embd = 8)
    ∧ ∀ i : nat, (i < length segment_embd)%nat →
        segment_embd !! i = Some (segment_tag 7 1 1 i).
Proof.
  assert (F : field "segment_embd"
                (TSMDataset.__getitem__
                   (TSMDataset.__init__ [("C", "O")] pad7_vocab 8 char_tokens false) 0
                   (replay [half]))
              = Some (TInts [1; 1; 1; 2; 2; 7; 7; 7])).
  { vm_compute. reflexivity. }
  destruct (TSMDataset.__getitem__
              (TSMDataset.__init__ [("C", "O")] pad7_vocab 8 char_tokens false) 0
              (replay [half])) as [[s g']|e] eqn:E.
  - cbn [field].
    eapply (proj1 (proj2 pair_segment_tags)
              (TSMDataset.__init__ [("C", "O")] pad7_vocab 8 char_tokens false)
              {| TSMDataset.vocab := pad7_vocab; TSMDataset.seq_len := 8;
                 TSMDataset.firsts := ["C"]; TSMDataset.seconds := ["O"] |}
              0 (replay [half]) "C" "O" 0 _ s g').
    + reflexivity.
    + vm_compute. reflexivity.
    + exact E.
  - discriminate F.
Defined.

(** ** Pairing *)

Lemma np_getitem_in_range {A} (a : list A) (i : Z) :
  - py_len a ≤ i < py_len a → ∃ x, np_getitem a i = Ok x.
Proof.
  intros Hi. unfold np_getitem, py_len in *.
  destruct (Z.ltb_spec i 0).
  - destruct (Z.ltb_spec (i + Z.of_nat (length a)) 0); [lia|].
    destruct (lookup_lt_is_Some_2 a (Z.to_nat (i + Z.of_nat (length a)))) as [x ->]; [lia|].
    eauto.
  - destruct (Z.ltb_spec i 0); [lia|].
    destruct (lookup_lt_is_Some_2 a (Z.to_nat i)) as [x ->]; [lia|]. eauto.
Qed.

Lemma random_random_returns g : ∃ rand g1, random_random g = Ok (rand, g1).
Proof. unfold random_random. cbn. unfold ret. eauto. Qed.

(** The pair chosen by [get_random_pair], by the outcome of its draw. *)
Lemma get_random_pair_run firsts seconds index g rand g1 :
  random_random g = Ok (rand, g1) →
  get_random_pair firsts seconds index g =
  if (rand <? 0.5)%float then
    match np_getitem firsts index with
    | Ok sm => Ok ((sm, 1), g1)
    | Raise e => Raise e
    end
  else
    match np_getitem seconds index with
    | Ok sm => Ok ((sm, 0), g1)
    | Raise e => Raise e
    end.
Proof.
  intros Hr. unfold get_random_pair. rewrite bind_run, Hr.
  destruct (rand <? 0.5)%float; rewrite bind_run.
  - by destruct (np_getitem firsts index).
  - by destruct (np_getitem seconds index).
Qed.

(** A [TSMDataset] sample is a function of the row and of the side on
    which the pairing draw falls. *)
Lemma TSMDataset_getitem_run df vocab seq_len transform is_train item g rand g1 :
  random_random g = Ok (rand, g1) →
  TSMDataset.__getitem__ (TSMDataset.__init__ df vocab seq_len transform is_train) item g =
  let st := {| TSMDataset.vocab := vocab; TSMDataset.seq_len := seq_len;
               TSMDataset.firsts := df.*1; TSMDataset.seconds := df.*2 |} in
  match np_getitem (df.*1) item with
  | Ok sm1 =>
      if (rand <? 0.5)%float then TSMDataset.build st sm1 sm1 1 g1
      else match np_getitem (df.*2) item with
           | Ok sm2 => TSMDataset.build st sm1 sm2 0 g1
           | Raise e => Raise e
           end
  | Raise e => Raise e
  end.
Proof.
  intros Hr. unfold TSMDataset.__getitem__.
  rewrite bind_run, TSMDataset_fields_init, lift_ok_run.
  unfold TSMDataset.getitem, TSMDataset.resolve, TSMDataset.get_random_pair.
  cbn [TSMDataset.firsts TSMDataset.seconds]. cbv zeta.
  rewrite !bind_run. destruct (np_getitem (df.*1) item) as [sm1|e] eqn:E1; [|done].
  rewrite lift_ok_run, bind_run, (get_random_pair_run _ _ _ _ _ _ Hr).
  destruct (rand <? 0.5)%float.
  - by rewrite E1.
  - by destruct (np_getitem (df.*2) item).
Qed.

(** C9.  [TSMDataset] draws once, for the pairing: on a row of the corpus,
    two constructions whose pairing draws fall on the same side of 0.5
    return the same sample, so the same [bert_input] and the same
    [segment_embd]. *)
Theorem TSMDataset_same_draw_same_sample
    df vocab seq_len transform is_train item (g1 g2 h1 h2 : RandomState) (r1 r2 : float) :
  - py_len df ≤ item < py_len df →
  random_random g1 = Ok (r1, h1) →
  random_random g2 = Ok (r2, h2) →
  (r1 <? 0.5)%float = (r2 <? 0.5)%float →
  ∃ s bert_input segment_embd,
    TSMDataset.__getitem__
      (TSMDataset.__init__ df vocab seq_len transform is_train) item g1 = Ok (s, h1)
    ∧ TSMDataset.__getitem__
        (TSMDataset.__init__ df vocab seq_len transform is_train) item g2 = Ok (s, h2)
    ∧ s !! "bert_input" = Some (TInts bert_input)
    ∧ s !! "segment_embd" = Some (TInts segment_embd).
Proof.
  intros Hi Hr1 Hr2 Hside.
  rewrite (TSMDataset_getitem_run _ _ _ _ _ _ _ _ _ Hr1).
  rewrite (TSMDataset_getitem_run _ _ _ _ _ _ _ _ _ Hr2). cbv zeta.
  destruct (np_getitem_in_range (df.*1) item) as [sm1 ->];
    [unfold py_len in *; by rewrite length_fmap|].
  destruct (np_getitem_in_range (df.*2) item) as [sm2 ->];
    [unfold py_len in *; by rewrite length_fmap|].
  rewrite <- Hside.
  destruct (r1 <? 0.5)%float; rewrite !TSMDataset_build_run; cbv zeta;
    eexists _, _, _; split_and!; reflexivity.
Qed.

Lemma TSMDataset_same_draw_same_sample_witness :
  ∃ s bert_input segment_embd,
    TSMDataset.__getitem__
      (TSMDataset.__init__ [("C", "O")] example_vocab 8 char_tokens true) 0
      (replay [half]) = Ok (s, {| tape := tape (replay [half]); cursor := 1 |})
    ∧ TSMDataset.__getitem__
        (TSMDataset.__init__ [("C", "O")] example_vocab 8 char_tokens true) 0
        (replay [2 ^ 53 - 1]) = Ok (s, {| tape := tape (replay [2 ^ 53 - 1]); cursor := 1 |})
    ∧ s !! "bert_input" = Some (TInts bert_input)
    ∧ s !! "segment_embd" = Some (TInts segment_embd).
Proof.
  apply (TSMDataset_same_draw_same_sample [("C", "O")] example_vocab 8 char_tokens true 0
           (replay [half]) (replay [2 ^ 53 - 1]) _ _
           (draw_value half) (draw_value (2 ^ 53 - 1))).
  - unfold py_len. simpl. lia.
  - reflexivity.
  - reflexivity.
  - vm_compute. reflexivity.
Defined.

(** C7.  With the example vocabulary and [seq_len = 8], the row
    [("C", "O")] and a pairing draw on the "different" side give
    [bert_input = [2,5,3,6,3,0,0,0]] and [segment_embd = [1,1,1,2,2,0,0,0]],
    in [TSMDataset] and in [STDataset] in evaluation mode (where the
    transform yields the token sequences ["C"] and ["O"]). *)
Theorem pair_example
    (g g1 : RandomState) (rand : float) (transform : Transform) (is_train : bool) :
  random_random g = Ok (rand, g1) →
  (rand <? 0.5)%float = false →
  field "bert_input"
    (TSMDataset.__getitem__
       (TSMDataset.__init__ [("C", "O")] example_vocab 8 transform is_train) 0 g)
  = Some (TInts [2; 5; 3; 6; 3; 0; 0; 0])
  ∧ field "segment_embd"
      (TSMDataset.__getitem__
         (TSMDataset.__init__ [("C", "O")] example_vocab 8 transform is_train) 0 g)
    = Some (TInts [1; 1; 1; 2; 2; 0; 0; 0])
  ∧ field "bert_input"
      (STDataset.__getitem__
         (STDataset.__init__ [("C", "O")] example_vocab 8 char_tokens false) 0 g)
    = Some (TInts [2; 5; 3; 6; 3; 0; 0; 0])
  ∧ field "segment_embd"
      (STDataset.__getitem__
         (STDataset.__init__ [("C", "O")] example_vocab 8 char_tokens false) 0 g)
    = Some (TInts [1; 1; 1; 2; 2; 0; 0; 0]).
Proof.
  intros Hr Hge.
  rewrite (TSMDataset_getitem_run _ _ _ _ _ _ _ _ _ Hr). cbv zeta.
  assert (Hst : STDataset.__getitem__
                  (STDataset.__init__ [("C", "O")] example_vocab 8 char_tokens false) 0 g
                = STDataset.build
                    {| STDataset.vocab := example_vocab; STDataset.seq_len := 8;
                       STDataset.is_train := false; STDataset.transform := char_tokens;
                       STDataset.firsts := ["C"]; STDataset.seconds := ["O"] |}
                    ["C"] ["O"] 0 g1).
  { unfold STDataset.__getitem__. rewrite bind_run, STDataset_fields_init, lift_ok_run.
    unfold STDataset.getitem, STDataset.resolve, STDataset.get_random_pair.
    rewrite !bind_run. cbn [STDataset.firsts STDataset.seconds].
    change (np_getitem (eval_cap false (py_len [("C", "O")]) [("C", "O")].*1) 0)
      with (Ok (A:=string) "C").
    rewrite lift_ok_run, bind_run, (get_random_pair_run _ _ _ _ _ _ Hr), Hge.
    reflexivity. }
  rewrite Hst, Hge.
  split_and!; vm_compute; reflexivity.
Qed.

Lemma pair_example_witness :
  field "bert_input"
    (TSMDataset.__getitem__
       (TSMDataset.__init__ [("C", "O")] example_vocab 8 char_tokens false) 0 (replay [half]))
  = Some (TInts [2; 5; 3; 6; 3; 0; 0; 0]).
Proof.
  apply (pair_example (replay [half]) {| tape := tape (replay [half]); cursor := 1 |}
           (draw_value half) char_tokens false).
  - reflexivity.
  - vm_compute. reflexivity.
Defined.

(** ** The length query of [STDataset] *)

(** C10.  On every constructed [STDataset] the length query raises
    [AttributeError]: it reads the attribute [smiles], which the constructor
    does not bind (and the methods of the class bind no attribute at all). *)
Theorem STDataset_len_raises df vocab seq_len transform is_train :
  STDataset.__len__ (STDataset.__init__ df vocab seq_len transform is_train)
  = Raise AttributeError
  ∧ STDataset.__init__ df vocab seq_len transform is_train !! "smiles" = None.
Proof.
  split; [|apply STDataset_smiles_unset].
  unfold STDataset.__len__, getattr. by rewrite STDataset_smiles_unset.
Qed.

(** The sibling class binds [smiles], and its length query returns the
    number of rows it kept. *)
Lemma Seq2seqDataset_len_returns df vocab seq_len transform is_train :
  Seq2seqDataset.__len__ (Seq2seqDataset.__init__ df vocab seq_len transform is_train)
  = Ok (py_len (eval_cap is_train (py_len df) df)).
Proof.
  unfold Seq2seqDataset.__init__, eval_cap.
  destruct (negb is_train && (10000 <? py_len df)); reflexivity.
Qed.

(** ** Empty token sequences *)

(** Truncating then padding [l] up to [n] adds [n - len(l)] pad ids. *)
Lemma fit_padding (n x : Z) (l : list Z) :
  fit n x l = py_slice_to n l ++ py_repeat x (n - py_len l).
Proof.
  unfold fit, py_repeat, py_slice_to, py_len. f_equal.
  destruct (Z.leb_spec 0 n); rewrite length_take; f_equal; lia.
Qed.

(** C8.  When the token sequences of a row are empty, every variant
    returns a sample, and its arrays hold the marker ids of the empty
    sequences ([sos], [eos] and, for a pair, a second [eos]), cut to
    [seq_len], followed by pad ids only. *)
Theorem empty_tokenization :
  (∀ self st item g is_same_label g1,
     STDataset.fields self = Ok st →
     STDataset.resolve st item g = Ok (([], [], is_same_label), g1) →
     let vocab := STDataset.vocab st in
     let n := STDataset.seq_len st in
     ∃ s, STDataset.__getitem__ self item g = Ok (s, g1)
          ∧ s !! "bert_input"
            = Some (TInts (py_slice_to n [sos_index vocab; eos_index vocab; eos_index vocab]
                           ++ py_repeat (pad_index vocab) (n - 3)))
          ∧ s !! "bert_label"
            = Some (TInts (py_slice_to n [pad_index vocab; pad_index vocab; pad_index vocab]
                           ++ py_repeat (pad_index vocab) (n - 3))))
  ∧ (∀ self st item g g1,
       MSMDataset.fields self = Ok st →
       MSMDataset.resolve st item g = Ok (([], []), g1) →
       let vocab := MSMDataset.vocab st in
       let n := MSMDataset.seq_len st in
       ∃ s, MSMDataset.__getitem__ self item g = Ok (s, g1)
            ∧ s !! "bert_input"
              = Some (TInts (py_slice_to n [sos_index vocab; eos_index vocab; eos_index vocab]
                             ++ py_repeat (pad_index vocab) (n - 3)))
            ∧ s !! "bert_label"
              = Some (TInts (py_slice_to n [pad_index vocab; pad_index vocab; pad_index vocab]
                             ++ py_repeat (pad_index vocab) (n - 3))))
  ∧ (∀ self st item g is_same_label g1,
       TSMDataset.fields self = Ok st →
       TSMDataset.resolve st item g = Ok (("", "", is_same_label), g1) →
       let vocab := TSMDataset.vocab st in
       let n := TSMDataset.seq_len st in
       ∃ s, TSMDataset.__getitem__ self item g = Ok (s, g1)
            ∧ s !! "bert_input"
              = Some (TInts (py_slice_to n [sos_index vocab; eos_index vocab; eos_index vocab]
                             ++ py_repeat (pad_index vocab) (n - 3))))
  ∧ (∀ self st item g y g1,
       ESOLDataset.fields self = Ok st →
       ESOLDataset.resolve st item g = Ok (([], y), g1) →
       let vocab := ESOLDataset.vocab st in
       let n := ESOLDataset.seq_len st in
       ∃ s, ESOLDataset.__getitem__ self item g = Ok (s, g1)
            ∧ s !! "bert_input"
              = Some (TInts (py_slice_to n [sos_index vocab; eos_index vocab]
                             ++ py_repeat (pad_index vocab) (n - 2))))
  ∧ (∀ self st item g sm g1 g2,
       Seq2seqDataset.fields self = Ok st →
       np_getitem (Seq2seqDataset.smiles st) item = Ok sm →
       Seq2seqDataset.transform st sm g = Ok ([], g1) →
       Seq2seqDataset.transform st sm g1 = Ok ([], g2) →
       let vocab := Seq2seqDataset.vocab st in
       let n := Seq2seqDataset.seq_len st in
       Seq2seqDataset.__getitem__ self item g
       = Ok (([sos_index vocab; eos_index vocab] ++ py_repeat (pad_index vocab) (n - 2),
              [sos_index vocab; eos_index vocab] ++ py_repeat (pad_index vocab) (n - 2)), g2)).
Proof.
  split_and!.
  - intros * Hst Hres vocab n. unfold STDataset.__getitem__.
    rewrite bind_run, Hst, lift_ok_run. unfold STDataset.getitem.
    rewrite bind_run, Hres, STDataset_build_run. cbn [mask_tokens].
    rewrite !ret_run. cbv zeta. eexists. split; [reflexivity|].
    rewrite lookup_insert_eq, lookup_insert_ne, lookup_insert_eq by done.
    rewrite !fit_padding. done.
  - intros * Hst Hres vocab n. unfold MSMDataset.__getitem__.
    rewrite bind_run, Hst, lift_ok_run. unfold MSMDataset.getitem.
    rewrite bind_run, Hres, MSMDataset_build_run. cbn [mask_tokens].
    rewrite !ret_run. cbv zeta. eexists. split; [reflexivity|].
    rewrite lookup_insert_eq, lookup_insert_ne, lookup_insert_eq by done.
    rewrite !fit_padding. done.
  - intros * Hst Hres vocab n. unfold TSMDataset.__getitem__.
    rewrite bind_run, Hst, lift_ok_run. unfold TSMDataset.getitem.
    rewrite bind_run, Hres, TSMDataset_build_run. cbv zeta.
    eexists. split; [reflexivity|].
    rewrite lookup_insert_eq, fit_padding. done.
  - intros * Hst Hres vocab n. unfold ESOLDataset.__getitem__.
    rewrite bind_run, Hst, lift_ok_run. unfold ESOLDataset.getitem.
    rewrite bind_run, Hres, ESOLDataset_build_run. cbv zeta.
    eexists. split; [reflexivity|].
    rewrite lookup_insert_eq, fit_padding. done.
  - intros * Hst Hsm H1 H2 vocab n. unfold Seq2seqDataset.__getitem__.
    rewrite bind_run, Hst, lift_ok_run. unfold Seq2seqDataset.getitem.
    rewrite bind_run, Hsm, lift_ok_run, bind_run, H1, bind_run, H2.
    rewrite !Seq2seqDataset_view_ids. cbv zeta.
    rewrite bind_run, torch_tensor_ints, lift_ok_run. done.
Qed.

Lemma empty_tokenization_witness :
  field "bert_input"
    (STDataset.__getitem__
       (STDataset.__init__ [("", "")] example_vocab 8 char_tokens true) 0 (replay [0]))
  = Some (TInts [2; 3; 3; 0; 0; 0; 0; 0]).
Proof.
  destruct (proj1 empty_tokenization
              (STDataset.__init__ [("", "")] example_vocab 8 char_tokens true)
              {| STDataset.vocab := example_vocab; STDataset.seq_len := 8;
                 STDataset.is_train := true; STDataset.transform := char_tokens;
                 STDataset.firsts := [""]; STDataset.seconds := [""] |}
              0 (replay [0]) 1 {| tape := tape (replay [0]); cursor := 1 |}
              ltac:(reflexivity) ltac:(vm_compute; reflexivity))
    as (s & E & Hinput & _).
  rewrite E. cbn [field]. rewrite Hinput. vm_compute. reflexivity.
Defined.

(** ** Evaluation mode *)

(** With a rate below 1 the draw [1.0] of evaluation mode exceeds the rate:
    no token is corrupted and no randomness is consumed. *)
Lemma mask_tokens_eval vocab rate sm g :
  (rate <? 1)%float = true →
  mask_tokens vocab false rate sm g
  = Ok ((λ token, (stoi_get vocab token, PAD)) <$> sm, g).
Proof.
  intros Hr. induction sm as [|token rest IH]; [done|].
  cbn [mask_tokens]. rewrite bind_run.
  rewrite (mask_token_keep vocab false rate token g 1 g (draw_prob_eval g) Hr).
  rewrite bind_run, IH. done.
Qed.

Lemma fit_replicate (n x : Z) (k : nat) :
  0 ≤ n → fit n x (replicate k x) = replicate (Z.to_nat n) x.
Proof.
  intros Hn. unfold fit, py_slice_to, py_repeat, py_len.
  destruct (Z.leb_spec 0 n); [|lia].
  rewrite take_replicate, length_replicate, <- replicate_add. f_equal. lia.
Qed.

Lemma pair_layout_pad (x : Z) (sm1 sm2 : list string) (f : string → Z) :
  pair_layout x x ((λ token, (f token, x)) <$> sm1).*2 ((λ token, (f token, x)) <$> sm2).*2
  = replicate (length sm1 + length sm2 + 3) x.
Proof.
  assert (E : ∀ sm : list string,
            ((λ token, (f token, x)) <$> sm).*2 = replicate (length sm) x).
  { induction sm as [|t sm IH]; [done|]. cbn. by f_equal. }
  unfold pair_layout. rewrite !E.
  change [x] with (replicate 1 x). rewrite <- !replicate_add. f_equal. lia.
Qed.

Lemma fmap_fst_encoding (f : string → Z) (x : Z) (sm : list string) :
  ((λ token, (f token, x)) <$> sm).*1 = f <$> sm.
Proof. induction sm as [|t sm IH]; [done|]. cbn. by f_equal. Qed.

(** X21.  In evaluation mode [STDataset] never masks: the labels are all pad and
    the input is the encoding of the two token sequences with its markers,
    cut and padded to [seq_len]. *)
Lemma STDataset_eval_passthrough self st item g sm1 sm2 is_same_label g1 :
  STDataset.fields self = Ok st →
  STDataset.is_train st = false →
  pad_index (STDataset.vocab st) = PAD → 0 ≤ STDataset.seq_len st →
  STDataset.resolve st item g = Ok ((sm1, sm2, is_same_label), g1) →
  let vocab := STDataset.vocab st in
  let n := STDataset.seq_len st in
  ∃ s, STDataset.__getitem__ self item g = Ok (s, g1)
       ∧ s !! "bert_label" = Some (TInts (replicate (Z.to_nat n) (pad_index vocab)))
       ∧ s !! "bert_input"
         = Some (TInts (fit n (pad_index vocab)
                          (pair_layout (sos_index vocab) (eos_index vocab)
                             (stoi_get vocab <$> sm1) (stoi_get vocab <$> sm2)))).
Proof.
  intros Hst Heval Hpad Hn Hres vocab n. subst vocab n. unfold STDataset.__getitem__.
  rewrite bind_run, Hst, lift_ok_run. unfold STDataset.getitem.
  rewrite bind_run, Hres, STDataset_build_run, Heval.
  rewrite !mask_tokens_eval by reflexivity. cbv zeta. eexists. split; [reflexivity|].
  rewrite lookup_insert_eq, lookup_insert_ne, lookup_insert_eq by done.
  rewrite !fmap_fst_encoding, Hpad.
  rewrite pair_layout_pad, fit_replicate by done. done.
Qed.

(** X22.  So does [MSMDataset], provided its rate is below 1. *)
Lemma MSMDataset_eval_passthrough self st item g sm1 sm2 g1 :
  MSMDataset.fields self = Ok st →
  MSMDataset.is_train st = false →
  (MSMDataset.rate st <? 1)%float = true →
  pad_index (MSMDataset.vocab st) = PAD → 0 ≤ MSMDataset.seq_len st →
  MSMDataset.resolve st item g = Ok ((sm1, sm2), g1) →
  let vocab := MSMDataset.vocab st in
  let n := MSMDataset.seq_len st in
  ∃ s, MSMDataset.__getitem__ self item g = Ok (s, g1)
       ∧ s !! "bert_label" = Some (TInts (replicate (Z.to_nat n) (pad_index vocab)))
       ∧ s !! "bert_input"
         = Some (TInts (fit n (pad_index vocab)
                          (pair_layout (sos_index vocab) (eos_index vocab)
                             (stoi_get vocab <$> sm1) (stoi_get vocab <$> sm2)))).
Proof.
  intros Hst Heval Hrate Hpad Hn Hres vocab n. subst vocab n. unfold MSMDataset.__getitem__.
  rewrite bind_run, Hst, lift_ok_run. unfold MSMDataset.getitem.
  rewrite bind_run, Hres, MSMDataset_build_run, Heval.
  rewrite !mask_tokens_eval by done. cbv zeta. eexists. split; [reflexivity|].
  rewrite lookup_insert_eq, lookup_insert_ne, lookup_insert_eq by done.
  rewrite !fmap_fst_encoding, Hpad.
  rewrite pair_layout_pad, fit_replicate by done. done.
Qed.

(** C5, at the input on which it fails.  [MSMDataset] in evaluation mode
    with [rate = 1.0]: the draw [1.0] does not exceed the rate, the masking
    branch runs, and [bert_label] holds the id of the token "C" (5) in both
    sequences instead of pad ids only; [bert_input] is still the unmasked
    encoding. *)
Theorem MSMDataset_eval_masks_at_rate_one (g : RandomState) :
  field "bert_label"
    (MSMDataset.__getitem__
       (MSMDataset.__init__ ["C"] example_vocab 8 char_tokens false 1) 0 g)
  = Some (TInts [0; 5; 0; 5; 0; 0; 0; 0])
  ∧ field "bert_input"
      (MSMDataset.__getitem__
         (MSMDataset.__init__ ["C"] example_vocab 8 char_tokens false 1) 0 g)
    = Some (TInts [2; 5; 3; 5; 3; 0; 0; 0]).
Proof. split; vm_compute; reflexivity. Qed.

(** * Further properties of the code *)

(** ** [encode] ([ESOLDataset.encode], [TSMDataset.encode]) *)

(** X1.  [encode] never raises and overwrites every placeholder: it returns
    one id per token, in order; the id is the entry of the token in [stoi],
    and [unk_index] for a token that [stoi] does not hold. *)
Theorem encode_one_id_per_token (vocab : Vocab) (sm : list string) :
  ∃ coded_ids,
    encode vocab sm = Ok coded_ids
    ∧ length coded_ids = length sm
    ∧ ∀ (i : nat) (token : string),
        sm !! i = Some token →
        coded_ids !! i
        = Some (PyInt (match stoi vocab !! token with
                       | Some id => id
                       | None => unk_index vocab
                       end)).
Proof.
  exists (PyInt <$> (stoi_get vocab <$> sm)). split; [apply encode_run|].
  split; [by rewrite !length_fmap|].
  intros i token Hi. rewrite !list_lookup_fmap, Hi. cbn. unfold stoi_get.
  by destruct (stoi vocab !! token).
Qed.

Lemma str_iter_chars (s : string) :
  str_iter s = (λ c, String c EmptyString) <$> String.list_ascii_of_string s.
Proof. induction s as [|c s IH]; [done|]. cbn. by f_equal. Qed.

(** X2.  [TSMDataset.encode] is handed the molecule string itself, not a
    token list: it produces one id per character of the string, the id of
    the one-character token (so a two-letter atom such as "Cl" gives two
    ids). *)
Theorem TSMDataset_encode_per_character (self : TSMDataset.t) (sm : string) :
  ∃ coded_ids,
    TSMDataset.encode self sm = Ok coded_ids
    ∧ length coded_ids = String.length sm
    ∧ coded_ids
      = PyInt <$> ((λ c, stoi_get (TSMDataset.vocab self) (String c EmptyString))
                   <$> String.list_ascii_of_string sm).
Proof.
  unfold TSMDataset.encode. rewrite encode_run, str_iter_chars.
  eexists. split; [reflexivity|]. rewrite <- !list_fmap_compose. split; [|done].
  rewrite length_fmap. induction sm as [|c sm IH]; [done|]. cbn. by f_equal.
Qed.

(** ** [mask] ([STDataset.mask], [MSMDataset.mask]) *)

Section MaskSlots.
Context (vocab : Vocab) (is_train : bool) (rate : float).

(** The outcomes of one iteration of the loop. *)
Lemma mask_token_cases token g m a g' :
  mask_token vocab is_train rate token g = Ok ((m, a), g') →
  ∃ p g1,
    draw_prob is_train g = Ok (p, g1)
    ∧ (((rate <? p)%float = true ∧ m = stoi_get vocab token ∧ a = PAD ∧ g' = g1)
       ∨ ((rate <? p)%float = false ∧ a = stoi_get vocab token
          ∧ ((m = mask_index vocab ∧ g' = g1)
             ∨ random_randrange (vocab_len vocab) g1 = Ok (m, g')
             ∨ (m = stoi_get vocab token ∧ g' = g1)))).
Proof.
  intros H. destruct (draw_prob_returns is_train g) as (p & g1 & Hp).
  exists p, g1. split; [done|].
  destruct (rate <? p)%float eqn:Hlt.
  - rewrite (mask_token_keep _ _ _ _ _ _ _ Hp Hlt) in H. injection H as <- <- <-.
    left. done.
  - right. split; [done|]. unfold mask_token in H. rewrite bind_run, Hp, Hlt in H.
    apply bind_ok_inv in H as (p' & g2 & Hdiv & H).
    apply lift_ok_inv in Hdiv as [Hdiv ->].
    apply bind_ok_inv in H as (k & g3 & Hk & H).
    apply ret_ok_inv in H as [H ->]. injection H as -> ->. split; [done|].
    destruct (p' <? 0.8)%float.
    + apply ret_ok_inv in Hk as [-> ->]. by left.
    + destruct (p' <? 0.9)%float.
      * right. by left.
      * apply ret_ok_inv in Hk as [-> ->]. right. by right.
Qed.

Lemma mask_tokens_Forall2 (P : string → Z * Z → Prop) sm :
  (∀ token g p g', mask_token vocab is_train rate token g = Ok (p, g') → P token p) →
  ∀ g ps g', mask_tokens vocab is_train rate sm g = Ok (ps, g') → Forall2 P sm ps.
Proof.
  intros HP. induction sm as [|token rest IH]; intros g ps g' H.
  - apply ret_ok_inv in H as [-> _]. constructor.
  - cbn [mask_tokens] in H.
    apply bind_ok_inv in H as (p & g1 & Htok & H).
    apply bind_ok_inv in H as (ps' & g2 & Hrest & H).
    apply ret_ok_inv in H as [-> _]. constructor; eauto.
Qed.

(** X3.  When [mask] returns, no [None] placeholder is left: both arrays
    have one slot per token and both convert to tensors. *)
Theorem mask_arrays_are_filled sm g masked_ids ans_ids g' :
  mask vocab is_train rate sm g = Ok ((masked_ids, ans_ids), g') →
  length masked_ids = length sm
  ∧ length ans_ids = length sm
  ∧ (∃ ids, torch_tensor masked_ids = Ok ids)
  ∧ (∃ ids, torch_tensor ans_ids = Ok ids).
Proof.
  intros H. apply mask_ok_inv in H as (ps & Hps & -> & ->).
  apply mask_tokens_length in Hps. rewrite !length_fmap, !torch_tensor_ints.
  split_and!; eauto.
Qed.

(** X4.  When [mask] returns, the input slot of every token holds the id
    of the token, the mask id, or an id of [0, len(vocab)); and whenever the
    input slot differs from the id of the token, the answer slot holds that
    id: a corrupted token can always be recovered from the answers. *)
Theorem mask_corruption_is_recoverable sm g masked_ids ans_ids g' :
  mask vocab is_train rate sm g = Ok ((masked_ids, ans_ids), g') →
  ∀ (i : nat) (token : string),
    sm !! i = Some token →
    ∃ m a,
      masked_ids !! i = Some (PyInt m)
      ∧ ans_ids !! i = Some (PyInt a)
      ∧ (m = stoi_get vocab token ∨ m = mask_index vocab ∨ 0 ≤ m < vocab_len vocab)
      ∧ (m ≠ stoi_get vocab token → a = stoi_get vocab token).
Proof.
  intros H i token Hi. apply mask_ok_inv in H as (ps & Hps & -> & ->).
  assert (HF : Forall2 (λ token p,
                 (p.1 = stoi_get vocab token ∨ p.1 = mask_index vocab
                  ∨ 0 ≤ p.1 < vocab_len vocab)
                 ∧ (p.1 ≠ stoi_get vocab token → p.2 = stoi_get vocab token)) sm ps).
  { eapply mask_tokens_Forall2; [|exact Hps].
    intros t g0 [m a] g1 Ht. cbn [fst snd].
    apply mask_token_cases in Ht as (p & g2 & _ & [(_ & -> & _)|(_ & -> & Hm)]).
    - split; [by left|done].
    - split; [|done]. destruct Hm as [[-> _]|[Hk|[-> _]]]; [by right; left| |by left].
      right. right. by apply random_randrange_ok in Hk. }
  destruct (Forall2_lookup_l _ _ _ _ _ HF Hi) as ([m a] & Hp & Hm & Ha).
  exists m, a. rewrite !list_lookup_fmap, Hp. done.
Qed.
End MaskSlots.

Lemma mask_arrays_are_filled_witness :
  length [PyInt 4; PyInt 6] = 2%nat
  ∧ length [PyInt 5; PyInt 0] = 2%nat
  ∧ (∃ ids, torch_tensor [PyInt 4; PyInt 6] = Ok ids)
  ∧ (∃ ids, torch_tensor [PyInt 5; PyInt 0] = Ok ids).
Proof.
  apply (mask_arrays_are_filled example_vocab true 0.15 ["C"; "O"]
           (replay [0; 2 ^ 53 - 1]) [PyInt 4; PyInt 6] [PyInt 5; PyInt 0]
           {| tape := tape (replay [0; 2 ^ 53 - 1]); cursor := 2 |}).
  vm_compute. reflexivity.
Defined.

Lemma mask_corruption_is_recoverable_witness :
  ∃ m a,
    [PyInt 4; PyInt 6] !! 0%nat = Some (PyInt m)
    ∧ [PyInt 5; PyInt 0] !! 0%nat = Some (PyInt a)
    ∧ (m = stoi_get example_vocab "C" ∨ m = mask_index example_vocab
       ∨ 0 ≤ m < vocab_len example_vocab)
    ∧ (m ≠ stoi_get example_vocab "C" → a = stoi_get example_vocab "C").
Proof.
  apply (mask_corruption_is_recoverable example_vocab true 0.15 ["C"; "O"]
           (replay [0; 2 ^ 53 - 1]) [PyInt 4; PyInt 6] [PyInt 5; PyInt 0]
           {| tape := tape (replay [0; 2 ^ 53 - 1]); cursor := 2 |}).
  - vm_compute. reflexivity.
  - reflexivity.
Defined.

Section MaskEffects.
Context (vocab : Vocab) (is_train : bool) (rate : float).

Lemma mask_token_raises token g e :
  mask_token vocab is_train rate token g = Raise e →
  (e = ZeroDivisionError ∧ (rate =? 0)%float = true)
  ∨ (e = ValueError ∧ vocab_len vocab ≤ 0).
Proof.
  unfold mask_token. rewrite bind_run.
  destruct (draw_prob_returns is_train g) as (p & g1 & ->).
  destruct (rate <? p)%float; [discriminate|].
  rewrite bind_run. unfold py_div.
  destruct (rate =? 0)%float eqn:Hr.
  - cbn. intros H; injection H as <-. by left.
  - rewrite lift_ok_run, bind_run.
    destruct (p / rate <? 0.8)%float; [discriminate|].
    destruct (p / rate <? 0.9)%float; [|discriminate].
    unfold random_randrange.
    destruct (Z.leb_spec (vocab_len vocab) 0) as [Hlen|Hlen]; [|discriminate].
    cbn. intros H; injection H as <-. by right.
Qed.

(** X5.  [mask] raises nothing but [ZeroDivisionError], and only with a
    rate equal to 0, or [ValueError], and only with [len(vocab) <= 0]; the
    index assignments into the preallocated arrays never go out of range. *)
Theorem mask_only_raises sm g e :
  mask vocab is_train rate sm g = Raise e →
  (e = ZeroDivisionError ∧ (rate =? 0)%float = true)
  ∨ (e = ValueError ∧ vocab_len vocab ≤ 0).
Proof.
  rewrite mask_run. revert g. induction sm as [|token rest IH]; intros g; [discriminate|].
  cbn [mask_tokens]. rewrite bind_run.
  destruct (mask_token vocab is_train rate token g) as [[p g1]|e1] eqn:Htok.
  - rewrite bind_run. specialize (IH g1).
    destruct (mask_tokens vocab is_train rate rest g1) as [[ps g2]|e2]; [discriminate|].
    intros H; injection H as <-. by apply IH.
  - intros H; injection H as <-. by apply mask_token_raises in Htok.
Qed.

Lemma draw_prob_state g p g1 :
  draw_prob is_train g = Ok (p, g1) →
  tape g1 = tape g ∧ cursor g1 = (cursor g + if is_train then 1 else 0)%nat.
Proof.
  unfold draw_prob. destruct is_train.
  - unfold random_random. rewrite bind_run. cbn. unfold ret.
    intros H; injection H as _ <-. cbn. split; [done|lia].
  - cbn. unfold ret. intros H; injection H as _ <-. split; [done|lia].
Qed.

Lemma random_randrange_state n g k g' :
  random_randrange n g = Ok (k, g') → tape g' = tape g ∧ cursor g' = S (cursor g).
Proof.
  unfold random_randrange. destruct (n <=? 0); [discriminate|].
  cbn. unfold ret. intros H; injection H as <- <-. done.
Qed.

Lemma mask_tokens_draws sm : ∀ g ps g',
  mask_tokens vocab is_train rate sm g = Ok (ps, g') →
  tape g' = tape g
  ∧ (cursor g + (if is_train then length sm else 0) ≤ cursor g')%nat
  ∧ (cursor g' ≤ cursor g + length sm + (if is_train then length sm else 0))%nat.
Proof.
  induction sm as [|token rest IH]; intros g ps g' H.
  - apply ret_ok_inv in H as [_ ->]. destruct is_train; cbn; split_and!; try done; lia.
  - cbn [mask_tokens] in H.
    apply bind_ok_inv in H as ([m a] & g1 & Htok & H).
    apply bind_ok_inv in H as (ps' & g2 & Hrest & H).
    apply ret_ok_inv in H as [_ ->].
    apply IH in Hrest as (Ht & Hlo & Hhi).
    apply mask_token_cases in Htok as (p & g3 & Hp & Hcase).
    apply draw_prob_state in Hp as [Ht3 Hc3].
    assert (Hg1 : tape g1 = tape g3 ∧ (cursor g3 ≤ cursor g1 ≤ S (cursor g3))%nat).
    { destruct Hcase as [(_ & _ & _ & ->)|(_ & _ & [[_ ->]|[Hk|[_ ->]]])];
        [split; [done|lia] ..| |split; [done|lia]].
      apply random_randrange_state in Hk as [-> ->]. split; [done|lia]. }
    destruct Hg1 as [Ht1 Hc1]. split; [congruence|].
    cbn [length]. destruct is_train; lia.
Qed.

(** X6.  The randomness [mask] consumes: when training, one
    [random.random()] per token plus at most one [random.randrange] per
    token, so between [n] and [2n] draws for [n] tokens; when not training,
    no [random.random()] at all.  The draws are taken in order from the
    random source. *)
Theorem mask_draw_count sm g masked_ids ans_ids g' :
  mask vocab is_train rate sm g = Ok ((masked_ids, ans_ids), g') →
  tape g' = tape g
  ∧ (cursor g + (if is_train then length sm else 0) ≤ cursor g')%nat
  ∧ (cursor g' ≤ cursor g + length sm + (if is_train then length sm else 0))%nat.
Proof.
  intros H. apply mask_ok_inv in H as (ps & Hps & _ & _).
  by apply mask_tokens_draws in Hps.
Qed.
End MaskEffects.

Lemma mask_only_raises_witness :
  (ZeroDivisionError = ZeroDivisionError ∧ (0 =? 0)%float = true)
  ∨ (ZeroDivisionError = ValueError ∧ vocab_len example_vocab ≤ 0).
Proof.
  apply (mask_only_raises example_vocab true 0 ["C"] (replay [0])).
  vm_compute. reflexivity.
Defined.

Lemma mask_draw_count_witness :
  let g := replay [2 ^ 50; 3; 2 ^ 53 - 1] in
  let g' := {| tape := tape g; cursor := 3 |} in
  tape g' = tape g
  ∧ (cursor g + 2 ≤ cursor g')%nat
  ∧ (cursor g' ≤ cursor g + 2 + 2)%nat.
Proof.
  intros g g'.
  apply (mask_draw_count example_vocab true 0.15 ["C"; "O"] g
           [PyInt 3; PyInt 6] [PyInt 5; PyInt 0] g').
  vm_compute. reflexivity.
Defined.

(** X7.  With a rate equal to 0, a training draw of exactly 0.0 is not
    greater than the rate, and the rescaling [prob /= rate] raises
    [ZeroDivisionError]: the whole call fails, whatever the tokens before
    and after. *)
Theorem mask_zero_rate_raises
    (vocab : Vocab) (rate : float) (pre : list string) (token : string) (post : list string)
    (g g1 g2 : RandomState) (r1 : list pyval * list pyval) (p : float) :
  (rate =? 0)%float = true →
  mask vocab true rate pre g = Ok (r1, g1) →
  random_random g1 = Ok (p, g2) →
  (p =? 0)%float = true →
  mask vocab true rate (pre ++ token :: post) g = Raise ZeroDivisionError.
Proof.
  intros Hr Hpre Hp Hp0. destruct r1 as [m1 a1].
  apply mask_ok_inv in Hpre as (ps1 & Hpre & _ & _).
  rewrite mask_run, mask_tokens_app, Hpre. cbn [mask_tokens].
  rewrite bind_run. unfold mask_token, draw_prob. rewrite bind_run, Hp.
  rewrite (float_zero_not_ltb _ _ Hr Hp0), bind_run. unfold py_div. by rewrite Hr.
Qed.

Lemma mask_zero_rate_raises_witness :
  mask example_vocab true 0 (["C"] ++ "O" :: ["C"]) (replay [5; 0; 7])
  = Raise ZeroDivisionError.
Proof.
  apply (mask_zero_rate_raises example_vocab 0 ["C"] "O" ["C"] (replay [5; 0; 7])
           {| tape := tape (replay [5; 0; 7]); cursor := 1 |}
           {| tape := tape (replay [5; 0; 7]); cursor := 2 |}
           ([PyInt 5], [PyInt 0]) (draw_value 0)).
  - reflexivity.
  - vm_compute. reflexivity.
  - vm_compute. reflexivity.
  - reflexivity.
Defined.

(** ** [mask] when not training *)

(** X8.  When not training and with a rate below 1, [mask] is the plain
    encoding: the input array holds the id of every token, the answer array
    holds [PAD] everywhere, and the random source is left untouched. *)
Theorem mask_eval_is_encoding
    (vocab : Vocab) (rate : float) (sm : list string) (g : RandomState) :
  (rate <? 1)%float = true →
  mask vocab false rate sm g
  = Ok ((PyInt <$> (stoi_get vocab <$> sm), replicate (length sm) (PyInt PAD)), g).
Proof.
  intros Hr. rewrite mask_run, mask_tokens_eval by done.
  rewrite fmap_fst_encoding. do 3 f_equal.
  induction sm as [|t sm IH]; [done|]. cbn. by f_equal.
Qed.

Lemma mask_eval_is_encoding_witness :
  mask example_vocab false 0.15 ["C"; "X"] (replay [])
  = Ok ((PyInt <$> (stoi_get example_vocab <$> ["C"; "X"]),
         replicate (length ["C"; "X"]) (PyInt PAD)), replay []).
Proof.
  apply (mask_eval_is_encoding example_vocab 0.15 ["C"; "X"] (replay [])).
  vm_compute. reflexivity.
Defined.

(** X9.  When not training but with a rate of 1 or more, the fixed draw
    [1.0] does not exceed the rate and every token takes the masking branch:
    the answer array holds the id of every token instead of [PAD]. *)
Theorem mask_eval_high_rate_labels_all
    (vocab : Vocab) (rate : float) (sm : list string) (g g' : RandomState)
    (masked_ids ans_ids : list pyval) :
  (1 <=? rate)%float = true →
  mask vocab false rate sm g = Ok ((masked_ids, ans_ids), g') →
  ans_ids = PyInt <$> (stoi_get vocab <$> sm).
Proof.
  intros Hr H. apply mask_ok_inv in H as (ps & Hps & _ & ->). f_equal.
  assert (HF : Forall2 (λ token p, p.2 = stoi_get vocab token) sm ps).
  { eapply mask_tokens_Forall2; [|exact Hps].
    intros t g0 [m a] g1 Ht. cbn [snd].
    apply mask_token_cases in Ht as (p & g2 & Hp & Hcase).
    rewrite draw_prob_eval in Hp. injection Hp as <- <-.
    destruct Hcase as [(Hlt & _)|(_ & -> & _)]; [|done].
    rewrite (float_leb_not_ltb _ _ Hr) in Hlt. discriminate. }
  clear Hps. induction HF as [|t p sm' ps' Hp _ IH]; [done|].
  cbn. by rewrite Hp, IH.
Qed.

Lemma mask_eval_high_rate_labels_all_witness :
  [PyInt 5; PyInt 6] = PyInt <$> (stoi_get example_vocab <$> ["C"; "O"]).
Proof.
  apply (mask_eval_high_rate_labels_all example_vocab 1 ["C"; "O"] (replay []) (replay [])
           [PyInt 5; PyInt 6] [PyInt 5; PyInt 6]).
  - vm_compute. reflexivity.
  - vm_compute. reflexivity.
Defined.

(** ** Indices, row counts and failures of [__getitem__] *)

Lemma np_getitem_out_of_range {A} (a : list A) (i : Z) :
  i < - py_len a ∨ py_len a ≤ i → np_getitem a i = Raise IndexError.
Proof.
  intros Hi. unfold np_getitem, py_len in *.
  destruct (Z.ltb_spec i 0).
  - destruct (Z.ltb_spec (i + Z.of_nat (length a)) 0); [done|lia].
  - destruct (Z.ltb_spec i 0); [lia|].
    rewrite (lookup_ge_None_2 a (Z.to_nat i)) by lia. done.
Qed.

Lemma py_len_eval_cap {A} (is_train : bool) (n : Z) (l : list A) :
  n = py_len l →
  py_len (eval_cap is_train n l) = if is_train then n else Z.min n 10000.
Proof.
  intros ->. unfold eval_cap. destruct is_train; [done|]. cbn [negb andb].
  destruct (Z.ltb_spec 10000 (py_len l)).
  - rewrite py_len_slice_to by lia. lia.
  - lia.
Qed.

(** X10.  An index outside [-n, n), [n] being the number of rows the
    instance holds, makes [__getitem__] raise [IndexError] in each of the
    five classes.  [STDataset] and [Seq2seqDataset] hold all the rows when
    training and at most 10000 otherwise; [ESOLDataset], [TSMDataset] and
    [MSMDataset] always hold all of them. *)
Theorem getitem_out_of_range (item : Z) (g : RandomState) :
  (∀ (df : list (string * string)%type) vocab seq_len transform (is_train : bool),
     let n := if is_train then py_len df else Z.min (py_len df) 10000 in
     item < - n ∨ n ≤ item →
     STDataset.__getitem__ (STDataset.__init__ df vocab seq_len transform is_train) item g
     = Raise IndexError)
  ∧ (∀ (df : list string) vocab seq_len transform (is_train : bool),
       let n := if is_train then py_len df else Z.min (py_len df) 10000 in
       item < - n ∨ n ≤ item →
       Seq2seqDataset.__getitem__
         (Seq2seqDataset.__init__ df vocab seq_len transform is_train) item g
       = Raise IndexError)
  ∧ (∀ (df : list (string * float)%type) vocab seq_len transform,
       item < - py_len df ∨ py_len df ≤ item →
       ESOLDataset.__getitem__ (ESOLDataset.__init__ df vocab seq_len transform) item g
       = Raise IndexError)
  ∧ (∀ (df : list (string * string)%type) vocab seq_len transform is_train,
       item < - py_len df ∨ py_len df ≤ item →
       TSMDataset.__getitem__ (TSMDataset.__init__ df vocab seq_len transform is_train) item g
       = Raise IndexError)
  ∧ (∀ (df : list string) vocab seq_len transform is_train rate,
       item < - py_len df ∨ py_len df ≤ item →
       MSMDataset.__getitem__
         (MSMDataset.__init__ df vocab seq_len transform is_train rate) item g
       = Raise IndexError).
Proof.
  split_and!.
  - intros * Hi. unfold STDataset.__getitem__.
    rewrite bind_run, STDataset_fields_init, lift_ok_run.
    unfold STDataset.getitem, STDataset.resolve. rewrite !bind_run.
    cbn [STDataset.firsts]. rewrite np_getitem_out_of_range; [done|].
    rewrite py_len_eval_cap by (unfold py_len; by rewrite length_fmap). done.
  - intros * Hi. unfold Seq2seqDataset.__getitem__.
    rewrite bind_run, Seq2seqDataset_fields_init, lift_ok_run.
    unfold Seq2seqDataset.getitem. rewrite !bind_run.
    cbn [Seq2seqDataset.smiles]. rewrite np_getitem_out_of_range; [done|].
    by rewrite py_len_eval_cap.
  - intros * Hi. unfold ESOLDataset.__getitem__.
    rewrite bind_run, ESOLDataset_fields_init, lift_ok_run.
    unfold ESOLDataset.getitem, ESOLDataset.resolve. rewrite !bind_run.
    cbn [ESOLDataset.smiles]. rewrite np_getitem_out_of_range; [done|].
    unfold py_len in *. by rewrite length_fmap.
  - intros * Hi. unfold TSMDataset.__getitem__.
    rewrite bind_run, TSMDataset_fields_init, lift_ok_run.
    unfold TSMDataset.getitem, TSMDataset.resolve. rewrite !bind_run.
    cbn [TSMDataset.firsts]. rewrite np_getitem_out_of_range; [done|].
    unfold py_len in *. by rewrite length_fmap.
  - intros * Hi. unfold MSMDataset.__getitem__.
    rewrite bind_run, MSMDataset_fields_init, lift_ok_run.
    unfold MSMDataset.getitem, MSMDataset.resolve. rewrite !bind_run.
    cbn [MSMDataset.firsts]. by rewrite np_getitem_out_of_range.
Qed.

Lemma getitem_out_of_range_witness :
  TSMDataset.__getitem__
    (TSMDataset.__init__ [("C", "O")] example_vocab 8 char_tokens true) 1 (replay [])
  = Raise IndexError.
Proof.
  apply (proj1 (proj2 (proj2 (proj2 (getitem_out_of_range 1 (replay [])))))
           [("C", "O")] example_vocab 8 char_tokens true).
  right. unfold py_len. simpl. lia.
Defined.

(** X11.  The length queries: [Seq2seqDataset.__len__] returns the number
    of rows when training and at most 10000 otherwise; [ESOLDataset],
    [TSMDataset] and [MSMDataset] return the number of rows of the corpus,
    in evaluation mode too. *)
Theorem len_returns_row_count :
  (∀ df vocab seq_len transform (is_train : bool),
     Seq2seqDataset.__len__ (Seq2seqDataset.__init__ df vocab seq_len transform is_train)
     = Ok (if is_train then py_len df else Z.min (py_len df) 10000))
  ∧ (∀ df vocab seq_len transform,
       ESOLDataset.__len__ (ESOLDataset.__init__ df vocab seq_len transform)
       = Ok (py_len df))
  ∧ (∀ df vocab seq_len transform is_train,
       TSMDataset.__len__ (TSMDataset.__init__ df vocab seq_len transform is_train)
       = Ok (py_len df))
  ∧ (∀ df vocab seq_len transform is_train rate,
       MSMDataset.__len__ (MSMDataset.__init__ df vocab seq_len transform is_train rate)
       = Ok (py_len df)).
Proof.
  split_and!; [|reflexivity..].
  intros. rewrite Seq2seqDataset_len_returns. by rewrite py_len_eval_cap.
Qed.

(** ** The arrays of [Seq2seqDataset] and of [ESOLDataset] *)

Lemma PyInt_fmap_inj (l k : list Z) : PyInt <$> l = PyInt <$> k → l = k.
Proof.
  intros H. apply (f_equal torch_tensor) in H. rewrite !torch_tensor_ints in H.
  by injection H.
Qed.

Lemma np_getitem_elem_of {A} (a : list A) (i : Z) (x : A) :
  np_getitem a i = Ok x → x ∈ a.
Proof.
  unfold np_getitem.
  destruct ((if i <? 0 then i + py_len a else i) <? 0); [discriminate|].
  destruct (a !! _) as [y|] eqn:E; [|discriminate].
  intros H; injection H as <-. by eapply list_elem_of_lookup_2.
Qed.

Lemma eval_cap_subseteq {A} (is_train : bool) (n : Z) (l : list A) :
  eval_cap is_train n l ⊆ l.
Proof.
  unfold eval_cap. destruct (negb is_train && (10000 <? n)); [|done].
  unfold py_slice_to. cbn. apply subseteq_take.
Qed.

Lemma np_getitem_fmap {A B} (f : A → B) (a : list A) (i : Z) (x : A) :
  np_getitem a i = Ok x → np_getitem (f <$> a) i = Ok (f x).
Proof.
  unfold np_getitem. rewrite py_len_fmap.
  destruct ((if i <? 0 then i + py_len a else i) <? 0); [discriminate|].
  rewrite list_lookup_fmap. destruct (a !! _) as [y|]; [|discriminate].
  intros H; injection H as <-. done.
Qed.

(** X14.  A [Seq2seqDataset] sample holds two views of one row of the
    corpus: the transform is called twice on the same string, the first
    call before the second, and each array is the complete encoding of its
    token sequence between [sos] and [eos], never cut, followed by
    [seq_len - (n + 2)] pad ids when that is positive. *)
Theorem Seq2seqDataset_two_views
    df vocab seq_len transform is_train item g input1 input2 g' :
  Seq2seqDataset.__getitem__
    (Seq2seqDataset.__init__ df vocab seq_len transform is_train) item g
  = Ok ((input1, input2), g') →
  ∃ sm sm1 sm2 g1,
    sm ∈ df
    ∧ transform sm g = Ok (sm1, g1)
    ∧ transform sm g1 = Ok (sm2, g')
    ∧ input1 = [sos_index vocab] ++ (stoi_get vocab <$> sm1) ++ [eos_index vocab]
               ++ py_repeat (pad_index vocab) (seq_len - (py_len sm1 + 2))
    ∧ input2 = [sos_index vocab] ++ (stoi_get vocab <$> sm2) ++ [eos_index vocab]
               ++ py_repeat (pad_index vocab) (seq_len - (py_len sm2 + 2)).
Proof.
  intros H.
  apply Seq2seqDataset_getitem_inv in H
    as (st & sm & sm1 & sm2 & g1 & Hst & Hsm & H1 & H2 & Hv1 & Hv2).
  rewrite Seq2seqDataset_fields_init in Hst. injection Hst as <-.
  cbn [Seq2seqDataset.smiles Seq2seqDataset.transform] in *.
  rewrite Seq2seqDataset_view_ids in Hv1, Hv2. cbv zeta in Hv1, Hv2.
  apply PyInt_fmap_inj in Hv1, Hv2. cbn [Seq2seqDataset.vocab Seq2seqDataset.seq_len] in *.
  exists sm, sm1, sm2, g1. split_and!; try done.
  - eapply eval_cap_subseteq, np_getitem_elem_of, Hsm.
  - rewrite <- Hv1, <- !app_assoc. do 3 f_equal.
    rewrite !py_len_app, py_len_fmap. unfold py_len. cbn [length]. f_equal. lia.
  - rewrite <- Hv2, <- !app_assoc. do 3 f_equal.
    rewrite !py_len_app, py_len_fmap. unfold py_len. cbn [length]. f_equal. lia.
Qed.

Lemma Seq2seqDataset_two_views_witness :
  ∃ sm sm1 sm2 g1,
    sm ∈ ["CO"]
    ∧ char_tokens sm (replay []) = Ok (sm1, g1)
    ∧ char_tokens sm g1 = Ok (sm2, replay [])
    ∧ [2; 5; 6; 3; 0] = [sos_index example_vocab] ++ (stoi_get example_vocab <$> sm1)
                        ++ [eos_index example_vocab]
                        ++ py_repeat (pad_index example_vocab) (5 - (py_len sm1 + 2))
    ∧ [2; 5; 6; 3; 0] = [sos_index example_vocab] ++ (stoi_get example_vocab <$> sm2)
                        ++ [eos_index example_vocab]
                        ++ py_repeat (pad_index example_vocab) (5 - (py_len sm2 + 2)).
Proof.
  apply (Seq2seqDataset_two_views ["CO"] example_vocab 5 char_tokens true 0 (replay [])).
  vm_compute. reflexivity.
Defined.

(** X15.  An [ESOLDataset] sample, for a row that the transform turns into
    [n] tokens: [target] is the solubility of the row, unchanged;
    [bert_input] is [sos], the ids, [eos], cut to [seq_len] and padded;
    [segment_embd] is [n + 2] ones, not cut, followed by the same padding.
    With [0 <= seq_len < n + 2] the two arrays thus differ in length. *)
Theorem ESOLDataset_sample
    df vocab seq_len transform item g smiles (y : float) sm g1 :
  np_getitem df item = Ok (smiles, y) →
  transform smiles g = Ok (sm, g1) →
  let ids := [sos_index vocab] ++ (stoi_get vocab <$> sm) ++ [eos_index vocab] in
  ∃ s,
    ESOLDataset.__getitem__ (ESOLDataset.__init__ df vocab seq_len transform) item g
    = Ok (s, g1)
    ∧ s !! "target" = Some (TFloat y)
    ∧ s !! "bert_input"
      = Some (TInts (py_slice_to seq_len ids
                     ++ py_repeat (pad_index vocab) (seq_len - (py_len sm + 2))))
    ∧ s !! "segment_embd"
      = Some (TInts (py_repeat 1 (py_len sm + 2)
                     ++ py_repeat (pad_index vocab) (seq_len - (py_len sm + 2)))).
Proof.
  intros Hrow Htr ids. unfold ESOLDataset.__getitem__.
  rewrite bind_run, ESOLDataset_fields_init, lift_ok_run.
  unfold ESOLDataset.getitem, ESOLDataset.resolve.
  cbn [ESOLDataset.smiles ESOLDataset.Y ESOLDataset.transform]. rewrite !bind_run.
  rewrite (np_getitem_fmap fst _ _ _ Hrow), lift_ok_run, bind_run.
  rewrite (np_getitem_fmap snd _ _ _ Hrow), lift_ok_run, bind_run. cbn [fst snd].
  rewrite Htr, ret_run, ESOLDataset_build_run. cbv zeta.
  cbn [ESOLDataset.vocab ESOLDataset.seq_len]. fold ids.
  assert (Hlen : py_len ids = py_len sm + 2).
  { unfold ids. rewrite !py_len_app, py_len_fmap. unfold py_len. cbn [length]. lia. }
  eexists. split; [reflexivity|].
  rewrite lookup_insert_ne, lookup_insert_ne, lookup_insert_eq by done.
  rewrite lookup_insert_eq, lookup_insert_ne, lookup_insert_eq by done.
  rewrite fit_padding, Hlen. split_and!; try done.
  do 3 f_equal. unfold py_repeat, py_slice_to, py_len in *.
  destruct (Z.leb_spec 0 seq_len); rewrite length_take; f_equal; lia.
Qed.

Lemma ESOLDataset_sample_witness :
  let ids := [sos_index example_vocab] ++ (stoi_get example_vocab <$> ["C"; "O"; "C"])
             ++ [eos_index example_vocab] in
  ∃ s,
    ESOLDataset.__getitem__
      (ESOLDataset.__init__ [("COC", 1.5%float)] example_vocab 3 char_tokens) 0 (replay [])
    = Ok (s, replay [])
    ∧ s !! "target" = Some (TFloat 1.5)
    ∧ s !! "bert_input"
      = Some (TInts (py_slice_to 3 ids
                     ++ py_repeat (pad_index example_vocab) (3 - (py_len ["C"; "O"; "C"] + 2))))
    ∧ s !! "segment_embd"
      = Some (TInts (py_repeat 1 (py_len ["C"; "O"; "C"] + 2)
                     ++ py_repeat (pad_index example_vocab)
                          (3 - (py_len ["C"; "O"; "C"] + 2)))).
Proof.
  apply (ESOLDataset_sample [("COC", 1.5%float)] example_vocab 3 char_tokens 0 (replay [])
           "COC" 1.5 ["C"; "O"; "C"] (replay [])).
  - reflexivity.
  - reflexivity.
Defined.

(** ** The samples of the pair variants *)

Lemma mask_ids_inv vocab is_train rate sm g m a g' :
  mask vocab is_train rate sm g = Ok ((PyInt <$> m, PyInt <$> a), g') →
  ∃ ps, mask_tokens vocab is_train rate sm g = Ok (ps, g')
        ∧ ps.*1 = m ∧ ps.*2 = a ∧ length ps = length sm.
Proof.
  intros H. apply mask_ok_inv in H as (ps & Hps & Hm & Ha).
  apply PyInt_fmap_inj in Hm, Ha. exists ps. split_and!; try done.
  by eapply mask_tokens_length.
Qed.

(** X16.  How [STDataset.__getitem__] and [MSMDataset.__getitem__] put
    the two masked sequences together.  If [mask] returns the ids [m1],
    [a1] for the first token sequence and then [m2], [a2] for the second,
    the sample holds [bert_input = sos m1 eos m2 eos] and
    [bert_label = pad a1 pad a2 pad], both cut to [seq_len] and padded with
    [seq_len - (n1 + n2 + 3)] pad ids; the first sequence is masked before
    the second; [STDataset] adds the pairing label as [is_same]. *)
Theorem masked_pair_layout (m1 a1 m2 a2 : list Z) (sm1 sm2 : list string) :
  (∀ self st item g is_same_label g1 g2 g3,
     STDataset.fields self = Ok st →
     STDataset.resolve st item g = Ok ((sm1, sm2, is_same_label), g1) →
     STDataset.mask st sm1 g1 = Ok ((PyInt <$> m1, PyInt <$> a1), g2) →
     STDataset.mask st sm2 g2 = Ok ((PyInt <$> m2, PyInt <$> a2), g3) →
     let vocab := STDataset.vocab st in
     let n := STDataset.seq_len st in
     let padding := py_repeat (pad_index vocab) (n - (py_len sm1 + py_len sm2 + 3)) in
     ∃ s,
       STDataset.__getitem__ self item g = Ok (s, g3)
       ∧ s !! "bert_input"
         = Some (TInts (py_slice_to n ([sos_index vocab] ++ m1 ++ [eos_index vocab]
                                        ++ m2 ++ [eos_index vocab]) ++ padding))
       ∧ s !! "bert_label"
         = Some (TInts (py_slice_to n ([pad_index vocab] ++ a1 ++ [pad_index vocab]
                                        ++ a2 ++ [pad_index vocab]) ++ padding))
       ∧ s !! "is_same" = Some (TInt is_same_label))
  ∧ (∀ self st item g g1 g2 g3,
       MSMDataset.fields self = Ok st →
       MSMDataset.resolve st item g = Ok ((sm1, sm2), g1) →
       MSMDataset.mask st sm1 g1 = Ok ((PyInt <$> m1, PyInt <$> a1), g2) →
       MSMDataset.mask st sm2 g2 = Ok ((PyInt <$> m2, PyInt <$> a2), g3) →
       let vocab := MSMDataset.vocab st in
       let n := MSMDataset.seq_len st in
       let padding := py_repeat (pad_index vocab) (n - (py_len sm1 + py_len sm2 + 3)) in
       ∃ s,
         MSMDataset.__getitem__ self item g = Ok (s, g3)
         ∧ s !! "bert_input"
           = Some (TInts (py_slice_to n ([sos_index vocab] ++ m1 ++ [eos_index vocab]
                                          ++ m2 ++ [eos_index vocab]) ++ padding))
         ∧ s !! "bert_label"
           = Some (TInts (py_slice_to n ([pad_index vocab] ++ a1 ++ [pad_index vocab]
                                          ++ a2 ++ [pad_index vocab]) ++ padding))).
Proof.
  split.
  - intros * Hst Hres H1 H2 vocab n padding. subst vocab n padding.
    apply mask_ids_inv in H1 as (ps1 & H1 & <- & <- & Hl1).
    apply mask_ids_inv in H2 as (ps2 & H2 & <- & <- & Hl2).
    unfold STDataset.__getitem__. rewrite bind_run, Hst, lift_ok_run.
    unfold STDataset.getitem. rewrite bind_run, Hres, STDataset_build_run, H1, H2.
    cbv zeta. eexists. split; [reflexivity|].
    rewrite lookup_insert_eq, lookup_insert_ne, lookup_insert_eq by done.
    do 3 (rewrite lookup_insert_ne by done). rewrite lookup_insert_eq.
    rewrite !fit_padding, !py_len_pair_layout. unfold py_len.
    rewrite !length_fmap, Hl1, Hl2. done.
  - intros * Hst Hres H1 H2 vocab n padding. subst vocab n padding.
    apply mask_ids_inv in H1 as (ps1 & H1 & <- & <- & Hl1).
    apply mask_ids_inv in H2 as (ps2 & H2 & <- & <- & Hl2).
    unfold MSMDataset.__getitem__. rewrite bind_run, Hst, lift_ok_run.
    unfold MSMDataset.getitem. rewrite bind_run, Hres, MSMDataset_build_run, H1, H2.
    cbv zeta. eexists. split; [reflexivity|].
    rewrite lookup_insert_eq, lookup_insert_ne, lookup_insert_eq by done.
    rewrite !fit_padding, !py_len_pair_layout. unfold py_len.
    rewrite !length_fmap, Hl1, Hl2. done.
Qed.

Lemma masked_pair_layout_witness :
  field "bert_input"
    (STDataset.__getitem__
       (STDataset.__init__ [("C", "O")] example_vocab 8 char_tokens true) 0
       (replay [half; 0; 2 ^ 53 - 1]))
  = Some (TInts [2; 4; 3; 6; 3; 0; 0; 0]).
Proof.
  destruct (proj1 (masked_pair_layout [4] [5] [6] [0] ["C"] ["O"])
              (STDataset.__init__ [("C", "O")] example_vocab 8 char_tokens true)
              {| STDataset.vocab := example_vocab; STDataset.seq_len := 8;
                 STDataset.is_train := true; STDataset.transform := char_tokens;
                 STDataset.firsts := ["C"]; STDataset.seconds := ["O"] |}
              0 (replay [half; 0; 2 ^ 53 - 1]) 0
              {| tape := tape (replay [half; 0; 2 ^ 53 - 1]); cursor := 1 |}
              {| tape := tape (replay [half; 0; 2 ^ 53 - 1]); cursor := 2 |}
              {| tape := tape (replay [half; 0; 2 ^ 53 - 1]); cursor := 3 |}
              ltac:(reflexivity) ltac:(vm_compute; reflexivity)
              ltac:(vm_compute; reflexivity) ltac:(vm_compute; reflexivity))
    as (s & E & Hinput & _).
  rewrite E. cbn [field]. rewrite Hinput. vm_compute. reflexivity.
Defined.

(** The sample of [TSMDataset] for a row and for the side of the pairing
    draw. *)
Lemma TSMDataset_getitem_row df vocab seq_len transform is_train item g rand g1 sm1 sm2 :
  random_random g = Ok (rand, g1) →
  np_getitem df item = Ok (sm1, sm2) →
  TSMDataset.__getitem__ (TSMDataset.__init__ df vocab seq_len transform is_train) item g
  = let second := if (rand <? 0.5)%float then sm1 else sm2 in
    let ids1 := stoi_get vocab <$> str_iter sm1 in
    let ids2 := stoi_get vocab <$> str_iter second in
    Ok (<["bert_input" :=
            TInts (fit seq_len (pad_index vocab)
                     (pair_layout (sos_index vocab) (eos_index vocab) ids1 ids2))]>
        (<["segment_embd" :=
             TInts (fit seq_len (pad_index vocab) (pair_tags (length ids1) (length ids2)))]>
         (<["is_same" := TInt (if (rand <? 0.5)%float then 1 else 0)]> ∅)), g1).
Proof.
  intros Hr Hrow. rewrite (TSMDataset_getitem_run _ _ _ _ _ _ _ _ _ Hr). cbv zeta.
  rewrite (np_getitem_fmap fst _ _ _ Hrow), (np_getitem_fmap snd _ _ _ Hrow). cbn [fst snd].
  destruct (rand <? 0.5)%float; by rewrite TSMDataset_build_run.
Qed.

(** X17.  The pairing of [TSMDataset], on the row [(first, second)] of the
    corpus.  A draw below 0.5 gives [is_same = 1] and a [bert_input] whose
    second sequence repeats the ids of [first]; any other draw gives
    [is_same = 0] and the ids of [second], the counterpart stored in the same
    row.  The ids are those of the characters of the strings. *)
Theorem TSMDataset_pairing
    df vocab seq_len transform is_train item g (rand : float) g1 (first second : string) :
  random_random g = Ok (rand, g1) →
  np_getitem df item = Ok (first, second) →
  let ids1 := stoi_get vocab <$> str_iter first in
  let ids2 := stoi_get vocab <$> str_iter second in
  let padding other := py_repeat (pad_index vocab) (seq_len - (py_len ids1 + py_len other + 3)) in
  ∃ s,
    TSMDataset.__getitem__ (TSMDataset.__init__ df vocab seq_len transform is_train) item g
    = Ok (s, g1)
    ∧ ((rand <? 0.5)%float = true →
         s !! "is_same" = Some (TInt 1)
         ∧ s !! "bert_input"
           = Some (TInts (py_slice_to seq_len
                            ([sos_index vocab] ++ ids1 ++ [eos_index vocab]
                             ++ ids1 ++ [eos_index vocab]) ++ padding ids1)))
    ∧ ((rand <? 0.5)%float = false →
         s !! "is_same" = Some (TInt 0)
         ∧ s !! "bert_input"
           = Some (TInts (py_slice_to seq_len
                            ([sos_index vocab] ++ ids1 ++ [eos_index vocab]
                             ++ ids2 ++ [eos_index vocab]) ++ padding ids2))).
Proof.
  intros Hr Hrow ids1 ids2 padding. subst ids1 ids2 padding.
  rewrite (TSMDataset_getitem_row _ _ _ _ _ _ _ _ _ _ _ Hr Hrow). cbv zeta.
  eexists. split; [reflexivity|].
  rewrite lookup_insert_eq, lookup_insert_ne, lookup_insert_ne, lookup_insert_eq by done.
  rewrite fit_padding, py_len_pair_layout.
  destruct (rand <? 0.5)%float; split; intros; try discriminate; done.
Qed.

Lemma TSMDataset_pairing_witness :
  field "is_same"
    (TSMDataset.__getitem__
       (TSMDataset.__init__ [("C", "O")] example_vocab 8 char_tokens true) 0 (replay [7]))
  = Some (TInt 1).
Proof.
  destruct (TSMDataset_pairing [("C", "O")] example_vocab 8 char_tokens true 0 (replay [7])
              (draw_value 7) {| tape := tape (replay [7]); cursor := 1 |}
              "C" "O" ltac:(reflexivity) ltac:(reflexivity))
    as (s & E & Hsame & _).
  rewrite E. cbn [field]. apply Hsame. vm_compute. reflexivity.
Defined.

(** X18.  Truncation in [TSMDataset] is a plain prefix, whichever way the
    pairing draw falls.  Let [ids2] be the ids of the second sequence, the
    one of [first] again after a draw below 0.5 and the one of [second]
    otherwise.  When the two sequences with their three markers do not fit
    ([0 <= seq_len < n1 + n2 + 3]), [bert_input] is the first [seq_len] ids
    of [sos ids1 eos ids2 eos] and holds no padding, so the closing [eos] is
    lost; [segment_embd] is cut in the same way. *)
Theorem TSMDataset_overflow_drops_tail
    df vocab seq_len transform is_train item g (rand : float) g1 (first second : string) :
  random_random g = Ok (rand, g1) →
  np_getitem df item = Ok (first, second) →
  let other := if (rand <? 0.5)%float then first else second in
  let ids1 := stoi_get vocab <$> str_iter first in
  let ids2 := stoi_get vocab <$> str_iter other in
  0 ≤ seq_len < py_len ids1 + py_len ids2 + 3 →
  ∃ s,
    TSMDataset.__getitem__ (TSMDataset.__init__ df vocab seq_len transform is_train) item g
    = Ok (s, g1)
    ∧ s !! "bert_input"
      = Some (TInts (take (Z.to_nat seq_len)
                       ([sos_index vocab] ++ ids1 ++ [eos_index vocab]
                        ++ ids2 ++ [eos_index vocab])))
    ∧ s !! "segment_embd"
      = Some (TInts (take (Z.to_nat seq_len)
                       (replicate (length ids1 + 2) 1 ++ replicate (length ids2 + 1) 2))).
Proof.
  intros Hr Hrow other ids1 ids2 Hn. subst ids1 ids2.
  rewrite (TSMDataset_getitem_row _ _ _ _ _ _ _ _ _ _ _ Hr Hrow). cbv zeta.
  fold other.
  eexists. split; [reflexivity|].
  rewrite lookup_insert_eq, lookup_insert_ne, lookup_insert_eq by done.
  rewrite !fit_padding, py_len_pair_layout, py_len_pair_tags.
  unfold py_repeat, py_slice_to, py_len in *.
  destruct (Z.leb_spec 0 seq_len); [|lia].
  set (n1 := length (stoi_get vocab <$> str_iter first)) in *.
  set (n2 := length (stoi_get vocab <$> str_iter other)) in *.
  replace (Z.to_nat (seq_len - _)) with 0%nat by lia.
  cbn [replicate]. rewrite !app_nil_r. done.
Qed.

(** The row [("CO", "OC")] with [seq_len = 6]: after a draw of 0.5 the
    second sequence is that of "OC", after the draw [7 * 2^-53] it is that of
    "CO" again; both samples stop before the closing [eos]. *)
Lemma TSMDataset_overflow_drops_tail_witness :
  field "bert_input"
    (TSMDataset.__getitem__
       (TSMDataset.__init__ [("CO", "OC")] example_vocab 6 char_tokens true) 0
       (replay [half]))
  = Some (TInts [2; 5; 6; 3; 6; 5])
  ∧ field "bert_input"
      (TSMDataset.__getitem__
         (TSMDataset.__init__ [("CO", "OC")] example_vocab 6 char_tokens true) 0
         (replay [7]))
    = Some (TInts [2; 5; 6; 3; 5; 6]).
Proof.
  split.
  - destruct (TSMDataset_overflow_drops_tail [("CO", "OC")] example_vocab 6 char_tokens
                true 0 (replay [half]) (draw_value half)
                {| tape := tape (replay [half]); cursor := 1 |} "CO" "OC"
                ltac:(reflexivity) ltac:(reflexivity)
                ltac:(vm_compute; split; [discriminate|reflexivity]))
      as (s & E & Hinput & _).
    rewrite E. cbn [field]. rewrite Hinput. vm_compute. reflexivity.
  - destruct (TSMDataset_overflow_drops_tail [("CO", "OC")] example_vocab 6 char_tokens
                true 0 (replay [7]) (draw_value 7)
                {| tape := tape (replay [7]); cursor := 1 |} "CO" "OC"
                ltac:(reflexivity) ltac:(reflexivity)
                ltac:(vm_compute; split; [discriminate|reflexivity]))
      as (s & E & Hinput & _).
    rewrite E. cbn [field]. rewrite Hinput. vm_compute. reflexivity.
Defined.

(** ** The fields of a sample and negative indices *)

(** X19.  The keys of a returned sample: [STDataset] gives [bert_input],
    [bert_label], [segment_embd] and [is_same]; [MSMDataset] gives no
    [is_same]; [TSMDataset] gives no [bert_label]; [ESOLDataset] gives
    [bert_input], [segment_embd] and [target]. *)
Theorem sample_keys :
  (∀ self item g s g',
     STDataset.__getitem__ self item g = Ok (s, g') →
     dom s = ({["bert_input"; "bert_label"; "segment_embd"; "is_same"]} : gset string))
  ∧ (∀ self item g s g',
       MSMDataset.__getitem__ self item g = Ok (s, g') →
       dom s = ({["bert_input"; "bert_label"; "segment_embd"]} : gset string))
  ∧ (∀ self item g s g',
       TSMDataset.__getitem__ self item g = Ok (s, g') →
       dom s = ({["bert_input"; "segment_embd"; "is_same"]} : gset string))
  ∧ (∀ self item g s g',
       ESOLDataset.__getitem__ self item g = Ok (s, g') →
       dom s = ({["bert_input"; "segment_embd"; "target"]} : gset string)).
Proof.
  split_and!.
  - intros * H.
    apply STDataset_getitem_inv in H as (st & sm1 & sm2 & lab & g1 & _ & _ & H).
    rewrite STDataset_build_run in H.
    destruct (mask_tokens _ _ _ sm1 g1) as [[ps1 g2]|e]; [|done].
    destruct (mask_tokens _ _ _ sm2 g2) as [[ps2 g3]|e]; [|done].
    cbv zeta in H. injection H as <- <-.
    rewrite !dom_insert_L, dom_empty_L. set_solver.
  - intros * H.
    apply MSMDataset_getitem_inv in H as (st & sm1 & sm2 & g1 & _ & _ & H).
    rewrite MSMDataset_build_run in H.
    destruct (mask_tokens _ _ _ sm1 g1) as [[ps1 g2]|e]; [|done].
    destruct (mask_tokens _ _ _ sm2 g2) as [[ps2 g3]|e]; [|done].
    cbv zeta in H. injection H as <- <-.
    rewrite !dom_insert_L, dom_empty_L. set_solver.
  - intros * H.
    apply TSMDataset_getitem_inv in H as (st & sm1 & sm2 & lab & g1 & _ & _ & H).
    rewrite TSMDataset_build_run in H. cbv zeta in H. injection H as <- <-.
    rewrite !dom_insert_L, dom_empty_L. set_solver.
  - intros * H.
    apply ESOLDataset_getitem_inv in H as (st & sm & y & g1 & _ & _ & H).
    rewrite ESOLDataset_build_run in H. cbv zeta in H. injection H as <- <-.
    rewrite !dom_insert_L, dom_empty_L. set_solver.
Qed.

Lemma sample_keys_witness :
  match TSMDataset.__getitem__
          (TSMDataset.__init__ [("C", "O")] example_vocab 8 char_tokens true) 0 (replay [7])
  with
  | Ok (s, _) => dom s = ({["bert_input"; "segment_embd"; "is_same"]} : gset string)
  | Raise _ => True
  end.
Proof.
  destruct (TSMDataset.__getitem__
              (TSMDataset.__init__ [("C", "O")] example_vocab 8 char_tokens true) 0
              (replay [7])) as [[s g']|e] eqn:E; [|exact I].
  exact (proj1 (proj2 (proj2 sample_keys)) _ _ _ _ _ E).
Defined.

Lemma np_getitem_negative {A} (a : list A) (i : Z) :
  - py_len a ≤ i < 0 → np_getitem a i = np_getitem a (i + py_len a).
Proof.
  intros Hi. unfold np_getitem. cbv zeta.
  destruct (Z.ltb_spec i 0); [|lia].
  pose proof (py_len_nonneg a).
  destruct (Z.ltb_spec (i + py_len a) 0) as [|_]; [lia|].
  destruct (Z.ltb_spec (i + py_len a) 0) as [|_]; [lia|]. done.
Qed.

(** X20.  A negative index counts from the end: for [-n <= item < 0], [n]
    the number of rows, [TSMDataset] and [MSMDataset] build from [item]
    exactly what they build from [item + n]. *)
Theorem negative_index_from_end (item : Z) (g : RandomState) :
  (∀ (df : list (string * string)%type) vocab seq_len transform is_train,
     - py_len df ≤ item < 0 →
     TSMDataset.__getitem__ (TSMDataset.__init__ df vocab seq_len transform is_train) item g
     = TSMDataset.__getitem__ (TSMDataset.__init__ df vocab seq_len transform is_train)
         (item + py_len df) g)
  ∧ (∀ (df : list string) vocab seq_len transform is_train rate,
       - py_len df ≤ item < 0 →
       MSMDataset.__getitem__
         (MSMDataset.__init__ df vocab seq_len transform is_train rate) item g
       = MSMDataset.__getitem__
           (MSMDataset.__init__ df vocab seq_len transform is_train rate)
           (item + py_len df) g).
Proof.
  split.
  - intros * Hi.
    assert (E1 : np_getitem (df.*1) item = np_getitem (df.*1) (item + py_len df)).
    { rewrite np_getitem_negative by (by rewrite py_len_fmap). by rewrite py_len_fmap. }
    assert (E2 : np_getitem (df.*2) item = np_getitem (df.*2) (item + py_len df)).
    { rewrite np_getitem_negative by (by rewrite py_len_fmap). by rewrite py_len_fmap. }
    destruct (random_random_returns g) as (rand & g1 & Hr).
    rewrite !(TSMDataset_getitem_run _ _ _ _ _ _ _ _ _ Hr). cbv zeta.
    by rewrite E1, E2.
  - intros * Hi. unfold MSMDataset.__getitem__.
    rewrite !bind_run, MSMDataset_fields_init, !lift_ok_run.
    unfold MSMDataset.getitem, MSMDataset.resolve. cbn [MSMDataset.firsts].
    rewrite !bind_run. by rewrite (np_getitem_negative df item Hi).
Qed.

Lemma negative_index_from_end_witness :
  TSMDataset.__getitem__
    (TSMDataset.__init__ [("C", "O"); ("O", "C")] example_vocab 8 char_tokens true) (-1)
    (replay [7])
  = TSMDataset.__getitem__
      (TSMDataset.__init__ [("C", "O"); ("O", "C")] example_vocab 8 char_tokens true)
      (-1 + py_len [("C", "O"); ("O", "C")]) (replay [7]).
Proof.
  apply (proj1 (negative_index_from_end (-1) (replay [7]))
           [("C", "O"); ("O", "C")] example_vocab 8 char_tokens true).
  unfold py_len. simpl. lia.
Defined.

(** ** Evaluation mode, on samples *)

Lemma STDataset_eval_passthrough_witness :
  field "bert_label"
    (STDataset.__getitem__
       (STDataset.__init__ [("CO", "OC")] example_vocab 8 char_tokens false) 0 (replay [7]))
  = Some (TInts [0; 0; 0; 0; 0; 0; 0; 0]).
Proof.
  destruct (STDataset_eval_passthrough
              (STDataset.__init__ [("CO", "OC")] example_vocab 8 char_tokens false)
              {| STDataset.vocab := example_vocab; STDataset.seq_len := 8;
                 STDataset.is_train := false; STDataset.transform := char_tokens;
                 STDataset.firsts := ["CO"]; STDataset.seconds := ["OC"] |}
              0 (replay [7]) ["C"; "O"] ["C"; "O"] 1
              {| tape := tape (replay [7]); cursor := 1 |}
              ltac:(reflexivity) ltac:(reflexivity) ltac:(reflexivity)
              ltac:(simpl; lia) ltac:(vm_compute; reflexivity))
    as (s & E & Hlabel & _).
  rewrite E. cbn [field]. rewrite Hlabel. vm_compute. reflexivity.
Defined.

Lemma MSMDataset_eval_passthrough_witness :
  field "bert_input"
    (MSMDataset.__getitem__
       (MSMDataset.__init__ ["CO"] example_vocab 8 char_tokens false 0.01) 0 (replay []))
  = Some (TInts [2; 5; 6; 3; 5; 6; 3; 0]).
Proof.
  destruct (MSMDataset_eval_passthrough
              (MSMDataset.__init__ ["CO"] example_vocab 8 char_tokens false 0.01)
              {| MSMDataset.vocab := example_vocab; MSMDataset.seq_len := 8;
                 MSMDataset.is_train := false; MSMDataset.transform := char_tokens;
                 MSMDataset.firsts := ["CO"]; MSMDataset.rate := 0.01 |}
              0 (replay []) ["C"; "O"] ["C"; "O"] (replay [])
              ltac:(reflexivity) ltac:(reflexivity) ltac:(vm_compute; reflexivity)
              ltac:(reflexivity) ltac:(simpl; lia) ltac:(vm_compute; reflexivity))
    as (s & E & _ & Hinput).
  rewrite E. cbn [field]. rewrite Hinput. vm_compute. reflexivity.
Defined.
